(** * seller-apis / market.py: stock and price synchronisation with a marketplace

    A shallow embedding of [market.py].  Python values are modelled by two
    small value types ([cell] for spreadsheet cells of the inventory feed,
    [json] for decoded HTTP bodies), exceptions by the [result] type, the
    in-place mutation of the [offer_ids] list by returning the final list
    next to the result, and HTTP traffic by a state-and-trace monad over an
    arbitrary server. *)

From Stdlib Require Import ZArith List String Ascii Bool Lia Permutation.
From Stdlib Require Import DecimalString DecimalPos.
Import ListNotations.

Local Open Scope string_scope.
Local Open Scope Z_scope.
Local Open Scope list_scope.

(* ================================================================== *)
(** ** Python values, exceptions and the builtins used by the module   *)
(* ================================================================== *)

Module Py.

(** Exceptions that the modelled code can raise. *)
Inductive exn : Type :=
| AttributeError
| TypeError
| ValueError
| HTTPError
| ConnectionError
| ReadTimeout
| JSONDecodeError
| IndexError.

(** A call either returns a value or raises. *)
Inductive result (A : Type) : Type :=
| Ok (a : A)
| Raise (e : exn).
Arguments Ok {A} a.
Arguments Raise {A} e.

Definition bind {A B} (r : result A) (k : A -> result B) : result B :=
  match r with
  | Ok a => k a
  | Raise e => Raise e
  end.

(** A cell of the inventory spreadsheet as [watch.get(key)] returns it:
    [None] for a missing key, an [int] or a [str].  Float, bool and date
    cells are outside the model. *)
Inductive cell : Type :=
| CNone
| CInt (z : Z)
| CStr (s : string).

(** A decoded JSON document (floats are outside the model).  A dictionary is
    kept as its items in insertion order. *)
#[local] Set Warnings "-register-all".
Inductive json : Type :=
| JNull
| JBool (b : bool)
| JInt (z : Z)
| JStr (s : string)
| JList (l : list json)
| JDict (d : list (string * json)).
#[local] Set Warnings "register-all".

(** [str(x)] on a cell. *)
Definition str (c : cell) : string :=
  match c with
  | CNone => "None"
  | CInt z => NilZero.string_of_int (Z.to_int z)
  | CStr s => s
  end.

(** Whitespace that [int] strips (the ASCII part of [str.isspace]). *)
Definition is_space (a : ascii) : bool :=
  let n := nat_of_ascii a in
  (((9 <=? n) && (n <=? 13)) || ((28 <=? n) && (n <=? 32)))%nat.

Fixpoint lstrip (s : string) : string :=
  match s with
  | EmptyString => EmptyString
  | String a r => if is_space a then lstrip r else s
  end.

Fixpoint rstrip (s : string) : string :=
  match s with
  | EmptyString => EmptyString
  | String a r =>
      match rstrip r with
      | EmptyString => if is_space a then EmptyString else String a EmptyString
      | r' => String a r'
      end
  end.

Definition strip (s : string) : string := rstrip (lstrip s).

Definition digit_val (a : ascii) : option Z :=
  let n := nat_of_ascii a in
  if ((48 <=? n) && (n <=? 57))%nat then Some (Z.of_nat n - 48) else None.

(** Decimal digits with single underscores allowed between digits;
    [prev] tells whether the previous character was a digit. *)
Fixpoint digits (acc : Z) (prev : bool) (s : string) : option Z :=
  match s with
  | EmptyString => if prev then Some acc else None
  | String a r =>
      if Ascii.eqb a "_"%char then
        if prev then digits acc false r else None
      else
        match digit_val a with
        | Some d => digits (10 * acc + d) true r
        | None => None
        end
  end.

(** The integer literal grammar of [int(s)] in base 10. *)
Definition int_of_str (s : string) : option Z :=
  match strip s with
  | String "+"%char r => digits 0 false r
  | String "-"%char r => option_map Z.opp (digits 0 false r)
  | t => digits 0 false t
  end.

(** [int(x)] on a cell. *)
Definition int (c : cell) : result Z :=
  match c with
  | CNone => Raise TypeError
  | CInt z => Ok z
  | CStr s =>
      match int_of_str s with
      | Some z => Ok z
      | None => Raise ValueError
      end
  end.

(** [s == v] for a [str] on the left: only an equal [str] compares equal. *)
Definition str_eq (s : string) (v : json) : bool :=
  match v with
  | JStr t => String.eqb s t
  | _ => false
  end.

(** [s in lst]. *)
Definition contains (s : string) (lst : list json) : bool :=
  existsb (str_eq s) lst.

(** [lst.remove(s)]: drops the first element equal to [s]; [ValueError]
    when there is none. *)
Fixpoint remove (s : string) (lst : list json) : result (list json) :=
  match lst with
  | [] => Raise ValueError
  | v :: rest =>
      if str_eq s v then Ok rest
      else bind (remove s rest) (fun rest' => Ok (v :: rest'))
  end.

(** Truth value of a decoded JSON value ([not page]). *)
Definition truthy (v : json) : bool :=
  match v with
  | JNull => false
  | JBool b => b
  | JInt z => negb (z =? 0)
  | JStr s => negb (String.eqb s "")
  | JList l => match l with [] => false | _ => true end
  | JDict d => match d with [] => false | _ => true end
  end.

Fixpoint lookup (key : string) (d : list (string * json)) : option json :=
  match d with
  | [] => None
  | (k, v) :: rest => if String.eqb key k then Some v else lookup key rest
  end.

(** [v.get(key)]: [None] for a missing key, [AttributeError] when [v] is not
    a dictionary. *)
Definition get (v : json) (key : string) : result json :=
  match v with
  | JDict d =>
      match lookup key d with
      | Some x => Ok x
      | None => Ok JNull
      end
  | _ => Raise AttributeError
  end.

Fixpoint chars (s : string) : list json :=
  match s with
  | EmptyString => []
  | String a r => JStr (String a EmptyString) :: chars r
  end.

(** [lst.extend(v)]: the elements of a list, the keys of a dictionary, the
    characters of a string; [TypeError] when [v] is not iterable. *)
Definition extend (lst : list json) (v : json) : result (list json) :=
  match v with
  | JList l => Ok (lst ++ l)
  | JDict d => Ok (lst ++ map (fun kv => JStr (fst kv)) d)
  | JStr s => Ok (lst ++ chars s)
  | _ => Raise TypeError
  end.

End Py.

(* ================================================================== *)
(** ** The helpers imported from [seller]                              *)
(* ================================================================== *)

Module Seller.

(** Modelled from the spec: the slices of [divide], cut from the front, at
    most [fuel] of them ([seller.py] is not among the sources). *)
Fixpoint divide_from {A} (fuel : nat) (lst : list A) (n : nat) : list (list A) :=
  match fuel with
  | O => []
  | S fuel' =>
      match lst with
      | [] => []
      | _ :: _ => firstn n lst :: divide_from fuel' (skipn n lst) n
      end
  end.

(** Modelled from the spec: [divide] of [seller.py], which is not among the
    sources.  The Batcher of the spec: "given a sequence and a maximum chunk
    size, produces a lazy sequence of contiguous slices each of length <= max
    size, consuming the full input, last chunk possibly shorter.  No
    reordering, no merging."  The chunks are cut greedily from the front;
    the generator is drained by its callers ([list(divide(..))]), so it is
    modelled by the list of its chunks.  The spec gives no meaning to a
    maximum of 0. *)
Definition divide {A} (lst : list A) (n : nat) : list (list A) :=
  divide_from (List.length lst) lst n.

(** The part of a price before its decimal separator. *)
Fixpoint before_dot (s : string) : string :=
  match s with
  | EmptyString => EmptyString
  | String a r => if Ascii.eqb a "."%char then EmptyString else String a (before_dot r)
  end.

(** A string without its grouping characters: the digits only. *)
Fixpoint only_digits (s : string) : string :=
  match s with
  | EmptyString => EmptyString
  | String a r =>
      match Py.digit_val a with
      | Some _ => String a (only_digits r)
      | None => only_digits r
      end
  end.

(** Modelled from the spec: [price_conversion] of [seller.py], which is not
    among the sources.  The Price Builder's conversion: "discard everything
    from a decimal separator onward, then strip non-digit grouping
    characters".  The spec types a price as a string; other cells have no
    [split] method. *)
Definition price_conversion (price : Py.cell) : Py.result Py.cell :=
  match price with
  | Py.CStr s => Py.Ok (Py.CStr (only_digits (before_dot s)))
  | _ => Py.Raise Py.AttributeError
  end.

End Seller.

(* ================================================================== *)
(** ** market.py                                                       *)
(* ================================================================== *)

Module Market.
Import Py.

Notation "x <- c1 ;; c2" := (bind c1 (fun x => c2))
  (at level 61, c1 at next level, right associativity).

(** An inventory record of [watch_remnants]: the three cells that the module
    reads with [watch.get]. *)
Record watch : Type := mk_watch {
  Kod : cell;          (* watch.get("Код") *)
  Kolichestvo : cell;  (* watch.get("Количество") *)
  Tsena : cell         (* watch.get("Цена") *)
}.

Record item : Type := mk_item {
  count : Z;
  type : string;
  updatedAt : string
}.

(** An element of the [skus] payload. *)
Record stock : Type := mk_stock {
  sku : json;
  warehouseId : string;
  items : list item
}.

Record price_value : Type := mk_price_value {
  value : Z;
  currencyId : string
}.

(** An element of the [offers] payload. *)
Record price : Type := mk_price {
  id : string;
  price_ : price_value
}.

(** Lines 235-241: the count sent for a matched record. *)
Definition stock_of (w : watch) : result Z :=
  let count := str (Kolichestvo w) in
  if String.eqb count ">10" then Ok 100
  else if String.eqb count "1" then Ok 0
  else int (Kolichestvo w).

(** Lines 233-255: the first loop of [create_stocks].  [stocks] and
    [offer_ids] are the two lists that the loop mutates; the final
    [offer_ids] is returned also when a record makes the loop raise. *)
Fixpoint match_loop (watch_remnants : list watch) (warehouse_id date : string)
    (stocks : list stock) (offer_ids : list json)
  : result (list stock) * list json :=
  match watch_remnants with
  | [] => (Ok stocks, offer_ids)
  | w :: rest =>
      if contains (str (Kod w)) offer_ids then
        match stock_of w with
        | Raise e => (Raise e, offer_ids)
        | Ok n =>
            let stocks' :=
              stocks ++ [mk_stock (JStr (str (Kod w))) warehouse_id
                                  [mk_item n "FIT" date]] in
            match remove (str (Kod w)) offer_ids with
            | Raise e => (Raise e, offer_ids)
            | Ok offer_ids' => match_loop rest warehouse_id date stocks' offer_ids'
            end
        end
      else match_loop rest warehouse_id date stocks offer_ids
  end.

(** Lines 257-270: the second loop of [create_stocks]. *)
Definition fill_loop (warehouse_id date : string)
    (stocks : list stock) (offer_ids : list json) : list stock :=
  fold_left
    (fun stocks offer_id =>
       stocks ++ [mk_stock offer_id warehouse_id [mk_item 0 "FIT" date]])
    offer_ids stocks.

(** [create_stocks(watch_remnants, offer_ids, warehouse_id)], with [date] the
    clock reading of line 232.  The second component is the list object
    [offer_ids] as the call leaves it. *)
Definition create_stocks (watch_remnants : list watch) (offer_ids : list json)
    (warehouse_id date : string) : result (list stock) * list json :=
  match match_loop watch_remnants warehouse_id date [] offer_ids with
  | (Ok stocks, offer_ids') =>
      (Ok (fill_loop warehouse_id date stocks offer_ids'), offer_ids')
  | (Raise e, offer_ids') => (Raise e, offer_ids')
  end.

(** *** The outside world: HTTP exchanges, the clock and the console *)

(** The three requests that the module sends, with the parts of them that
    vary ([params] of the GET, [json] payload of the PUT and the POST). *)
Inductive request : Type :=
| GetOfferMappingEntries (campaign_id access_token : string) (page_token : json)
| PutStocks (campaign_id access_token : string) (skus : list stock)
| PostPrices (campaign_id access_token : string) (offers : list price).

(** What [requests.get/put/post] gives back: the call raises, or there is a
    response with a status code and a body ([None]: the body is not JSON). *)
Inductive reply : Type :=
| Failed (e : exn)
| Response (status_code : Z) (body : option json).

Inductive event : Type :=
| Sent (rq : request) (rp : reply)
| Printed (msg : string).

(** A run returns, raises, or is still inside [while True] when the fuel of
    the model is used up. *)
Inductive outcome (A : Type) : Type :=
| Return (a : A)
| Raised (e : exn)
| Diverged.
Arguments Return {A} a.
Arguments Raised {A} e.
Arguments Diverged {A}.

(** An [async def] called without [await]: the call only builds the
    coroutine object; [body] runs when the coroutine is awaited. *)
Inductive coroutine (M : Type) : Type :=
| Coroutine (body : M).
Arguments Coroutine {M} body.

(** [response.raise_for_status()] of [requests]: an [HTTPError] for the
    client-error and server-error classes, nothing for any other status. *)
Definition raise_for_status (status_code : Z) : result unit :=
  if (400 <=? status_code) && (status_code <? 600) then Raise HTTPError
  else Ok tt.

(** [response.json()]. *)
Definition json_ (body : option json) : result json :=
  match body with
  | Some j => Ok j
  | None => Raise JSONDecodeError
  end.

(** Line 191: [product.get("offer").get("shopSku")]. *)
Definition shop_sku (product : json) : result json :=
  offer <- get product "offer" ;;
  get offer "shopSku".

(** Lines 189-191. *)
Fixpoint sku_loop (product_list : list json) (offer_ids : list json)
  : result (list json) :=
  match product_list with
  | [] => Ok offer_ids
  | product :: rest =>
      s <- shop_sku product ;;
      sku_loop rest (offer_ids ++ [s])
  end.

(** Line 342: [stock.get("items")[0].get("count") != 0]. *)
Definition nonzero_count (s : stock) : result bool :=
  match items s with
  | [] => Raise IndexError
  | i :: _ => Ok (negb (count i =? 0))
  end.

Fixpoint filter_nonzero (stocks : list stock) : result (list stock) :=
  match stocks with
  | [] => Ok []
  | s :: rest =>
      b <- nonzero_count s ;;
      rest' <- filter_nonzero rest ;;
      Ok (if b then s :: rest' else rest')
  end.

(** The values that [main] reads from the environment. *)
Record env : Type := mk_env {
  MARKET_TOKEN : string;
  FBS_ID : string;
  DBS_ID : string;
  WAREHOUSE_FBS_ID : string;
  WAREHOUSE_DBS_ID : string
}.

Section WithWorld.

(** [price_conversion] is imported from [seller]; the module is verified for
    any such function. *)
Variable price_conversion : cell -> result cell.

(** The marketplace and the network in front of it: any state machine that
    answers requests.  [utcnow] is the clock of line 232, already formatted. *)
Variable World : Type.
Variable http : World -> request -> reply * World.
Variable utcnow : World -> string.

Record state : Type := mk_state {
  world : World;
  trace : list event
}.

Definition M (A : Type) : Type := state -> outcome A * state.

Definition ret {A} (a : A) : M A := fun st => (Return a, st).

Definition raise {A} (e : exn) : M A := fun st => (Raised e, st).

Definition mbind {A B} (m : M A) (k : A -> M B) : M B :=
  fun st =>
    match m st with
    | (Return a, st') => k a st'
    | (Raised e, st') => (Raised e, st')
    | (Diverged, st') => (Diverged, st')
    end.

Definition lift {A} (r : result A) : M A :=
  match r with
  | Ok a => ret a
  | Raise e => raise e
  end.

(** One HTTP exchange, recorded in the trace. *)
Definition send (rq : request) : M reply :=
  fun st =>
    let '(rp, w) := http (world st) rq in
    (Return rp, mk_state w (trace st ++ [Sent rq rp])).

Definition print (msg : string) : M unit :=
  fun st => (Return tt, mk_state (world st) (trace st ++ [Printed msg])).

Definition now : M string :=
  fun st => (Return (utcnow (world st)), st).

(** [try: body except Exception as e: handler(e)]. *)
Definition try_except {A} (body : M A) (handler : exn -> M A) : M A :=
  fun st =>
    match body st with
    | (Raised e, st') => handler e st'
    | other => other
    end.

(** Lines 309-325. *)
Fixpoint price_loop (watch_remnants : list watch) (offer_ids : list json)
    (prices : list price) : result (list price) :=
  match watch_remnants with
  | [] => Ok prices
  | w :: rest =>
      if contains (str (Kod w)) offer_ids then
        converted <- price_conversion (Tsena w) ;;
        v <- int converted ;;
        price_loop rest offer_ids
          (prices ++ [mk_price (str (Kod w)) (mk_price_value v "RUR")])
      else price_loop rest offer_ids prices
  end.

Definition create_prices (watch_remnants : list watch) (offer_ids : list json)
  : result (list price) :=
  price_loop watch_remnants offer_ids [].


Notation "x <<- c1 ;; c2" := (mbind c1 (fun x => c2))
  (at level 61, c1 at next level, right associativity).

(** Lines 48-63. *)
Definition get_product_list (page : json) (campaign_id access_token : string)
  : M json :=
  response <<- send (GetOfferMappingEntries campaign_id access_token page) ;;
  match response with
  | Failed e => raise e
  | Response status_code body =>
      _ <<- lift (raise_for_status status_code) ;;
      response_object <<- lift (json_ body) ;;
      lift (get response_object "result")
  end.

(** Lines 102-114. *)
Definition update_stocks (stocks : list stock) (campaign_id access_token : string)
  : M json :=
  response <<- send (PutStocks campaign_id access_token stocks) ;;
  match response with
  | Failed e => raise e
  | Response status_code body =>
      _ <<- lift (raise_for_status status_code) ;;
      lift (json_ body)
  end.

(** Lines 143-155. *)
Definition update_price (prices : list price) (campaign_id access_token : string)
  : M json :=
  response <<- send (PostPrices campaign_id access_token prices) ;;
  match response with
  | Failed e => raise e
  | Response status_code body =>
      _ <<- lift (raise_for_status status_code) ;;
      lift (json_ body)
  end.

(** Lines 183-188: the [while True] loop, one iteration per unit of fuel. *)
Fixpoint page_loop (fuel : nat) (campaign_id market_token : string)
    (page : json) (product_list : list json) : M (list json) :=
  match fuel with
  | O => fun st => (Diverged, st)
  | S fuel' =>
      some_prod <<- get_product_list page campaign_id market_token ;;
      entries <<- lift (get some_prod "offerMappingEntries") ;;
      product_list' <<- lift (extend product_list entries) ;;
      paging <<- lift (get some_prod "paging") ;;
      page' <<- lift (get paging "nextPageToken") ;;
      if negb (truthy page') then ret product_list'
      else page_loop fuel' campaign_id market_token page' product_list'
  end.

(** Lines 181-192. *)
Definition get_offer_ids (fuel : nat) (campaign_id market_token : string)
  : M (list json) :=
  product_list <<- page_loop fuel campaign_id market_token (JStr "") [] ;;
  lift (sku_loop product_list []).

(** [for chunk in list(divide(lst, n)): submit(chunk, ...)]. *)
Fixpoint for_each {A} (chunks : list A) (submit : A -> M json) : M unit :=
  match chunks with
  | [] => ret tt
  | c :: rest => _ <<- submit c ;; for_each rest submit
  end.

(** Lines 329-333: the body of the coroutine function [upload_prices]. *)
Definition upload_prices_body (fuel : nat) (watch_remnants : list watch)
    (campaign_id market_token : string) : M (list price) :=
  offer_ids <<- get_offer_ids fuel campaign_id market_token ;;
  prices <<- lift (create_prices watch_remnants offer_ids) ;;
  _ <<- for_each (Seller.divide prices 500)
          (fun some_prices => update_price some_prices campaign_id market_token) ;;
  ret prices.

(** Line 328: [async def upload_prices]. *)
Definition upload_prices (fuel : nat) (watch_remnants : list watch)
    (campaign_id market_token : string) : coroutine (M (list price)) :=
  Coroutine (upload_prices_body fuel watch_remnants campaign_id market_token).

(** Lines 337-344: the body of the coroutine function [upload_stocks]. *)
Definition upload_stocks_body (fuel : nat) (watch_remnants : list watch)
    (campaign_id market_token warehouse_id : string)
  : M (list stock * list stock) :=
  offer_ids <<- get_offer_ids fuel campaign_id market_token ;;
  date <<- now ;;
  stocks <<- lift (fst (create_stocks watch_remnants offer_ids warehouse_id date)) ;;
  _ <<- for_each (Seller.divide stocks 2000)
          (fun some_stock => update_stocks some_stock campaign_id market_token) ;;
  not_empty <<- lift (filter_nonzero stocks) ;;
  ret (not_empty, stocks).

(** Line 336: [async def upload_stocks]. *)
Definition upload_stocks (fuel : nat) (watch_remnants : list watch)
    (campaign_id market_token warehouse_id : string)
  : coroutine (M (list stock * list stock)) :=
  Coroutine (upload_stocks_body fuel watch_remnants campaign_id market_token
               warehouse_id).

(** Lines 358-364 and 367-373: what [main] does for one channel.  The call
    of line 364 (373) is not awaited: its value, a coroutine object, is
    dropped. *)
Definition sync_channel (fuel : nat) (watch_remnants : list watch)
    (campaign_id warehouse_id market_token : string) : M unit :=
  offer_ids <<- get_offer_ids fuel campaign_id market_token ;;
  date <<- now ;;
  stocks <<- lift (fst (create_stocks watch_remnants offer_ids warehouse_id date)) ;;
  _ <<- for_each (Seller.divide stocks 2000)
          (fun some_stock => update_stocks some_stock campaign_id market_token) ;;
  _ <<- ret (upload_prices fuel watch_remnants campaign_id market_token) ;;
  ret tt.

(** Lines 374-379: the three handlers.  The event records which handler
    printed, not the text of its message. *)
Definition report (e : exn) : M unit :=
  match e with
  | ReadTimeout => print "ReadTimeout"
  | ConnectionError => print "ConnectionError"
  | _ => print "ERROR_2"
  end.

(** Lines 347-379, with the environment and the inventory feed
    ([download_stock()]) given. *)
Definition main (fuel : nat) (e : env) (watch_remnants : list watch) : M unit :=
  try_except
    (_ <<- sync_channel fuel watch_remnants (FBS_ID e) (WAREHOUSE_FBS_ID e)
             (MARKET_TOKEN e) ;;
     sync_channel fuel watch_remnants (DBS_ID e) (WAREHOUSE_DBS_ID e)
       (MARKET_TOKEN e))
    report.

End WithWorld.

Arguments mk_state {World} world trace.
Arguments world {World} s.
Arguments trace {World} s.

End Market.

(* ================================================================== *)
(** ** Vocabulary of the properties                                    *)
(* ================================================================== *)

Import Py Market.

(** [v] is the code of some inventory record: [str(watch.get("Код")) == v]
    for a record of the list. *)
Definition matched_by (watch_remnants : list watch) (v : json) : bool :=
  existsb (fun w => str_eq (str (Kod w)) v) watch_remnants.

(** The zero-stock update of the second loop. *)
Definition fill (warehouse_id date : string) (offer_id : json) : stock :=
  mk_stock offer_id warehouse_id [mk_item 0 "FIT" date].

(** The update of the first loop for a record whose count is [n]. *)
Definition matched_stock (warehouse_id date : string) (w : watch) (n : Z) : stock :=
  mk_stock (JStr (str (Kod w))) warehouse_id [mk_item n "FIT" date].

(** The count of the first (and only) item of an update. *)
Definition count_of (s : stock) : option Z :=
  match items s with
  | i :: _ => Some (count i)
  | [] => None
  end.

(** The fixed rule from a quantity descriptor to a count: 100 for the text
    ">10", 0 for the text "1", the integer value otherwise. *)
Definition count_rule (w : watch) (n : Z) : Prop :=
  (str (Kolichestvo w) = ">10" /\ n = 100) \/
  (str (Kolichestvo w) = "1" /\ n = 0) \/
  (str (Kolichestvo w) <> ">10" /\ str (Kolichestvo w) <> "1" /\
   int (Kolichestvo w) = Ok n).

(** What the spec says of the count of one update [s]: it follows the rule
    for a record with the sku of [s], or it is 0 and no record has that
    sku. *)
Definition count_as_specified (watch_remnants : list watch) (s : stock) : Prop :=
  exists n, count_of s = Some n /\
    ((exists w, In w watch_remnants /\ sku s = JStr (str (Kod w)) /\ count_rule w n) \/
     (matched_by watch_remnants (sku s) = false /\ n = 0)).

(** The same update with another timestamp. *)
Definition with_date (date : string) (s : stock) : stock :=
  mk_stock (sku s) (warehouseId s)
    (map (fun i => mk_item (count i) (type i) date) (items s)).

(** The record that a price entry was built from. *)
Definition priced_from (price_conversion : cell -> result cell)
    (w : watch) (p : price) : Prop :=
  id p = str (Kod w) /\ currencyId (price_ p) = "RUR" /\
  exists converted, price_conversion (Tsena w) = Ok converted /\
                    int converted = Ok (value (price_ p)).

Definition rmap {A B} (f : A -> B) (r : result A) : result B :=
  match r with
  | Ok a => Ok (f a)
  | Raise e => Raise e
  end.

(** The exchange got a response of the client-error or server-error class. *)
Definition error_reply (ev : event) : bool :=
  match ev with
  | Sent _ (Response status_code _) => (400 <=? status_code) && (status_code <? 600)
  | _ => false
  end.

(** The exchange got a response whose status is not 2xx. *)
Definition non_2xx_reply (ev : event) : bool :=
  match ev with
  | Sent _ (Response status_code _) =>
      negb ((200 <=? status_code) && (status_code <? 300))
  | _ => false
  end.

(** The exchange is a submission to the price endpoint. *)
Definition is_price_post (ev : event) : bool :=
  match ev with
  | Sent (PostPrices _ _ _) _ => true
  | _ => false
  end.

(** An action that, whatever the state, only appends to the trace, and that
    raises [HTTPError] whenever one of the exchanges it appends got a
    client-error or server-error response. *)
Definition stops_on_error {World A} (m : M World A) : Prop :=
  forall st, exists new,
    trace (snd (m st)) = trace st ++ new /\
    (existsb error_reply new = true -> fst (m st) = Raised HTTPError).

(** The exchange respects the payload limits: at most 2000 updates in a
    stock submission, at most 500 entries in a price submission. *)
Definition within_limits (ev : event) : bool :=
  match ev with
  | Sent (PutStocks _ _ skus) _ => (List.length skus <=? 2000)%nat
  | Sent (PostPrices _ _ offers) _ => (List.length offers <=? 500)%nat
  | _ => true
  end.

Definition no_price_post (ev : event) : bool := negb (is_price_post ev).

(** The method and the path of an exchange, to display a trace. *)
Definition endpoint (ev : event) : string :=
  match ev with
  | Sent (GetOfferMappingEntries c _ _) _ =>
      String.append "GET campaigns/" (String.append c "/offer-mapping-entries")
  | Sent (PutStocks c _ _) _ =>
      String.append "PUT campaigns/" (String.append c "/offers/stocks")
  | Sent (PostPrices c _ _) _ =>
      String.append "POST campaigns/" (String.append c "/offer-prices/updates")
  | Printed msg => String.append "print " msg
  end.

(** An action that keeps the trace within the events allowed by [P]. *)
Definition preserves {World A} (P : event -> bool) (m : M World A) : Prop :=
  forall st, forallb P (trace st) = true -> forallb P (trace (snd (m st))) = true.

(** The body of a page: it reads, with the accessors of lines 63 and
    185-186, as the entries [entries] and the cursor [next]. *)
Definition reads_as_page (body : json) (entries : list json) (next : json) : Prop :=
  exists some_prod paging,
    get body "result" = Ok some_prod /\
    get some_prod "offerMappingEntries" = Ok (JList entries) /\
    get some_prod "paging" = Ok paging /\
    get paging "nextPageToken" = Ok next.

(** A run of the listing endpoint: from the world [w] and the cursor
    [page_token] the server answers successive requests with pages, the
    cursor of each page leading to the next, up to a page whose cursor is
    falsy; [pages] are the entries of these pages and [w'] is the world after
    the last answer. *)
Inductive serves_pages {World : Type} (http : World -> request -> reply * World)
    (campaign_id access_token : string)
  : World -> json -> list (list json) -> World -> Prop :=
| serves_last_page w page_token status_code body entries next w' :
    http w (GetOfferMappingEntries campaign_id access_token page_token)
      = (Response status_code (Some body), w') ->
    raise_for_status status_code = Ok tt ->
    reads_as_page body entries next ->
    truthy next = false ->
    serves_pages http campaign_id access_token w page_token [entries] w'
| serves_next_page w page_token status_code body entries next w' pages w'' :
    http w (GetOfferMappingEntries campaign_id access_token page_token)
      = (Response status_code (Some body), w') ->
    raise_for_status status_code = Ok tt ->
    reads_as_page body entries next ->
    truthy next = true ->
    serves_pages http campaign_id access_token w' next pages w'' ->
    serves_pages http campaign_id access_token w page_token (entries :: pages) w''.

(** *** Vocabulary of the further properties *)

(** [l] is [l'] with some elements left out and the others in their order. *)
Inductive subseq {A : Type} : list A -> list A -> Prop :=
| subseq_nil : subseq [] []
| subseq_skip x l l' : subseq l l' -> subseq l (x :: l')
| subseq_take x l l' : subseq l l' -> subseq (x :: l) (x :: l').

(** The update [s] was built by the first loop from the record [w]. *)
Definition built_from (warehouse_id date : string) (w : watch) (s : stock) : Prop :=
  exists n, stock_of w = Ok n /\ s = matched_stock warehouse_id date w n.


(** The test of line 342 on an update that has an item. *)
Definition has_stock (s : stock) : bool :=
  match items s with
  | i :: _ => negb (count i =? 0)
  | [] => false
  end.

(** An action that only appends to the trace, and only events allowed by
    [P]. *)
Definition emits_only {World A} (P : event -> Prop) (m : M World A) : Prop :=
  forall st, exists new,
    trace (snd (m st)) = trace st ++ new /\ Forall P new.

(** The exchange is a listing request of the campaign, with the token. *)
Definition lists_for (campaign_id access_token : string) (ev : event) : Prop :=
  exists page rp, ev = Sent (GetOfferMappingEntries campaign_id access_token page) rp.

Definition is_sent (ev : event) : Prop :=
  exists rq rp, ev = Sent rq rp.

(** The exchange is a request to the campaign, with the token: a listing or
    a stock submission. *)
Definition syncs (campaign_id access_token : string) (ev : event) : Prop :=
  lists_for campaign_id access_token ev \/
  exists skus rp, ev = Sent (PutStocks campaign_id access_token skus) rp.

(** The exception, if any, that lines 60-62 (111-113, 152-154) raise on a
    reply. *)
Definition reply_raises (rp : reply) : option exn :=
  match rp with
  | Failed e => Some e
  | Response status_code body =>
      if (400 <=? status_code) && (status_code <? 600) then Some HTTPError
      else match body with
           | None => Some JSONDecodeError
           | Some _ => None
           end
  end.

(** The exchange is a request to the campaign, with the token: a listing or
    a price submission. *)
Definition price_sync (campaign_id access_token : string) (ev : event) : Prop :=
  lists_for campaign_id access_token ev \/
  exists offers rp, ev = Sent (PostPrices campaign_id access_token offers) rp.

(** An action that only appends to the trace, and that raises what the
    reply of an exchange makes lines 60-62 raise, as soon as there is such a
    reply among the exchanges it appends. *)
Definition passes_on {World A} (m : M World A) : Prop :=
  forall st, exists new,
    trace (snd (m st)) = trace st ++ new /\
    forall rq rp e, In (Sent rq rp) new -> reply_raises rp = Some e ->
                    fst (m st) = Raised e.

(** The stock submission of a chunk that got the reply [rp]. *)
Definition stock_submission (campaign_id access_token : string)
    (chunk_reply : list stock * reply) : event :=
  Sent (PutStocks campaign_id access_token (fst chunk_reply)) (snd chunk_reply).

(* ================================================================== *)
(** ** Sample data                                                     *)
(* ================================================================== *)

Module Sample.

(** The inventory of the spec's example, and one with a code listed twice. *)
Definition watch_A1 : watch :=
  mk_watch (CStr "A1") (CStr ">10") (CStr "1 990.00 rub.").
Definition watch_A1_again : watch :=
  mk_watch (CStr "A1") (CStr "5") (CStr "2 490.00 rub.").
Definition watch_bad : watch :=
  mk_watch (CStr "A1") (CStr "many") (CStr "1 990.00 rub.").

Definition inventory : list watch := [watch_A1].
Definition inventory_twice : list watch := [watch_A1; watch_A1_again].

Definition remote_ids : list json := [JStr "A1"; JStr "B2"].
Definition remote_ids_twice : list json := [JStr "A1"; JStr "A1"].

(** A marketplace that lists "A1" and "B2" on a first page and "C3" on a
    second, last page, and accepts every submission. *)
Definition entry (shopSku : string) : json :=
  JDict [("offer", JDict [("shopSku", JStr shopSku)])].

Definition page (shopSkus : list string) (paging : list (string * json)) : json :=
  JDict [("status", JStr "OK");
         ("result", JDict [("offerMappingEntries", JList (map entry shopSkus));
                           ("paging", JDict paging)])].

Definition accepted : reply := Response 200 (Some (JDict [("status", JStr "OK")])).

Definition two_pages (w : unit) (rq : request) : reply * unit :=
  match rq with
  | GetOfferMappingEntries _ _ page_token =>
      if str_eq "" page_token then
        (Response 200 (Some (page ["A1"; "B2"] [("nextPageToken", JStr "p2")])), tt)
      else
        (Response 200 (Some (page ["C3"] [])), tt)
  | _ => (accepted, tt)
  end.

(** The same marketplace when its second page is a server error. *)
Definition second_page_fails (w : unit) (rq : request) : reply * unit :=
  match rq with
  | GetOfferMappingEntries _ _ page_token =>
      if str_eq "" page_token then
        (Response 200 (Some (page ["A1"; "B2"] [("nextPageToken", JStr "p2")])), tt)
      else
        (Response 503 None, tt)
  | _ => (accepted, tt)
  end.

(** A marketplace that answers the listing with the status 300 (which
    [requests] neither follows as a redirect nor treats as an error) and a
    well-formed body. *)
Definition multiple_choices (w : unit) (rq : request) : reply * unit :=
  match rq with
  | GetOfferMappingEntries _ _ _ => (Response 300 (Some (page ["A1"] [])), tt)
  | _ => (accepted, tt)
  end.

(** A marketplace whose listing always announces a next page. *)
Definition endless (w : unit) (rq : request) : reply * unit :=
  match rq with
  | GetOfferMappingEntries _ _ _ =>
      (Response 200 (Some (page ["A1"] [("nextPageToken", JStr "more")])), tt)
  | _ => (accepted, tt)
  end.

(** A marketplace whose listing has no [paging] member. *)
Definition no_paging (w : unit) (rq : request) : reply * unit :=
  match rq with
  | GetOfferMappingEntries _ _ _ =>
      (Response 200
         (Some (JDict [("result", JDict [("offerMappingEntries",
                                           JList [entry "A1"])])])), tt)
  | _ => (accepted, tt)
  end.

(** A marketplace that lists, after "A1", an entry without [offer]. *)
Definition entry_without_offer (w : unit) (rq : request) : reply * unit :=
  match rq with
  | GetOfferMappingEntries _ _ _ =>
      (Response 200
         (Some (JDict [("result",
                        JDict [("offerMappingEntries", JList [entry "A1"; JDict []]);
                               ("paging", JDict [])])])), tt)
  | _ => (accepted, tt)
  end.

(** A marketplace that lists "A1" and "B2" and refuses the second and later
    stock submissions; the world counts the submissions. *)
Definition refuses_second_batch (w : nat) (rq : request) : reply * nat :=
  match rq with
  | GetOfferMappingEntries _ _ _ => (Response 200 (Some (page ["A1"; "B2"] [])), w)
  | PutStocks _ _ _ =>
      (match w with O => accepted | S _ => Response 500 None end, S w)
  | PostPrices _ _ _ => (accepted, w)
  end.

(** A network that is down. *)
Definition unreachable (w : unit) (rq : request) : reply * unit :=
  (Failed ConnectionError, tt).

Definition clock (w : unit) : string := "2024-01-01T00:00:00Z".

Definition environment : env := mk_env "token" "fbs" "dbs" "wh-fbs" "wh-dbs".

Lemma remote_ids_nodup : NoDup remote_ids.
Proof.
  unfold remote_ids.
  repeat constructor; simpl; intuition discriminate.
Defined.

End Sample.

(* ================================================================== *)
(** ** Facts about the Python list operations                          *)
(* ================================================================== *)

Section PyFacts.

Lemma str_eq_true (s : string) (v : json) :
  str_eq s v = true <-> v = JStr s.
Proof.
  destruct v; simpl; split; try discriminate.
  - intros H. apply String.eqb_eq in H. now subst.
  - intros H. injection H as ->. apply String.eqb_refl.
Qed.

Lemma contains_In (s : string) (lst : list json) :
  contains s lst = true <-> In (JStr s) lst.
Proof.
  unfold contains. rewrite existsb_exists. split.
  - intros (v & Hin & Heq). apply str_eq_true in Heq. now subst.
  - intros Hin. exists (JStr s). split; [assumption | now apply str_eq_true].
Qed.

(** [remove] succeeds on a list that contains the value and takes out exactly
    one occurrence of it. *)
Lemma remove_present (s : string) (lst : list json) :
  contains s lst = true ->
  exists lst', remove s lst = Ok lst' /\ Permutation lst (JStr s :: lst').
Proof.
  induction lst as [|v rest IH]; simpl; [discriminate|].
  destruct (str_eq s v) eqn:E.
  - intros _. apply str_eq_true in E. subst. eauto.
  - simpl. intros H. destruct (IH H) as (r & Hr & Hp).
    rewrite Hr. simpl. exists (v :: r). split; [reflexivity|].
    rewrite perm_swap. now constructor.
Qed.

Lemma remove_nodup (s : string) (lst lst' : list json) :
  NoDup lst -> remove s lst = Ok lst' ->
  lst' = filter (fun v => negb (str_eq s v)) lst /\ NoDup lst'.
Proof.
  intros Hnd. revert lst'. induction Hnd as [|v rest Hnotin Hnd IH]; simpl; [discriminate|].
  intros lst'. destruct (str_eq s v) eqn:E; simpl.
  - intros [= <-]. split; [|assumption].
    apply str_eq_true in E. subst v.
    symmetry. apply forallb_filter_id. apply forallb_forall.
    intros x Hx. destruct (str_eq s x) eqn:Ex; [|reflexivity].
    apply str_eq_true in Ex. now subst.
  - destruct (remove s rest) as [r|] eqn:Hr; simpl; [|discriminate].
    intros [= <-]. destruct (IH r eq_refl) as [-> Hnd'].
    split; [reflexivity|]. constructor; [|assumption].
    rewrite filter_In. tauto.
Qed.

Lemma filter_none {A} (f : A -> bool) (l : list A) :
  (forall x, In x l -> f x = false) -> filter f l = [].
Proof.
  induction l as [|a l IH]; simpl; intros H; [reflexivity|].
  rewrite (H a (or_introl eq_refl)). apply IH. auto.
Qed.

Lemma filter_absorb {A} (f g : A -> bool) (l : list A) :
  (forall x, f x = true -> g x = true) ->
  filter f (filter g l) = filter f l.
Proof.
  intros H. induction l as [|a l IH]; simpl; [reflexivity|].
  destruct (g a) eqn:Hg; simpl.
  - now rewrite IH.
  - destruct (f a) eqn:Hf; [|assumption].
    apply H in Hf. congruence.
Qed.

End PyFacts.

(* ================================================================== *)
(** ** The two loops of [create_stocks]                                *)
(* ================================================================== *)

Section StockFacts.

Variables warehouse_id date : string.

Lemma stock_of_rule (w : watch) (n : Z) :
  stock_of w = Ok n -> count_rule w n.
Proof.
  unfold stock_of, count_rule.
  destruct (String.eqb_spec (str (Kolichestvo w)) ">10") as [E1|E1].
  - intros [= <-]. now left.
  - destruct (String.eqb_spec (str (Kolichestvo w)) "1") as [E2|E2].
    + intros [= <-]. right. now left.
    + intros H. right. right. auto.
Qed.

Lemma fill_loop_eq (offer_ids : list json) :
  forall stocks,
    fill_loop warehouse_id date stocks offer_ids =
    stocks ++ map (fill warehouse_id date) offer_ids.
Proof.
  unfold fill_loop.
  induction offer_ids as [|v rest IH]; intros stocks; simpl.
  - now rewrite app_nil_r.
  - rewrite IH, <- app_assoc. reflexivity.
Qed.

(** A successful first loop appended one update per consumed id: what it
    emitted and what it left are together the ids it was given. *)
Lemma match_loop_ok (watch_remnants : list watch) :
  forall acc offer_ids stocks rest_ids,
    match_loop watch_remnants warehouse_id date acc offer_ids = (Ok stocks, rest_ids) ->
    exists new,
      stocks = acc ++ new /\
      Permutation offer_ids (map sku new ++ rest_ids) /\
      Forall (fun s => exists w n, In w watch_remnants /\ stock_of w = Ok n /\
                                   s = matched_stock warehouse_id date w n) new.
Proof.
  induction watch_remnants as [|w rest IH]; intros acc R ms R' H; simpl in H.
  - injection H as <- <-. exists []. rewrite app_nil_r. simpl. auto.
  - destruct (contains (str (Kod w)) R) eqn:Hc.
    + destruct (stock_of w) as [n|e] eqn:Hs; [|discriminate].
      destruct (remove_present _ _ Hc) as (R1 & Hr & Hp). rewrite Hr in H.
      apply IH in H as (new & -> & Hperm & Hall).
      exists (matched_stock warehouse_id date w n :: new). repeat split.
      * now rewrite <- app_assoc.
      * simpl. rewrite Hp. now constructor.
      * constructor.
        -- exists w, n. simpl. auto.
        -- eapply Forall_impl; [|exact Hall]. simpl.
           intros s (w' & n' & Hin & Hn & ->). exists w', n'. auto.
    + apply IH in H as (new & -> & Hperm & Hall).
      exists new. repeat split; try assumption.
      eapply Forall_impl; [|exact Hall]. simpl.
      intros s (w' & n' & Hin & Hn & ->). exists w', n'. auto.
Qed.

(** The first loop raises only on a record whose code is a remote id and
    whose quantity descriptor has no count. *)
Lemma match_loop_raise (watch_remnants : list watch) :
  forall acc offer_ids e rest_ids,
    match_loop watch_remnants warehouse_id date acc offer_ids = (Raise e, rest_ids) ->
    exists w, In w watch_remnants /\ In (JStr (str (Kod w))) offer_ids /\
              stock_of w = Raise e.
Proof.
  induction watch_remnants as [|w rest IH]; intros acc R e R' H; simpl in H;
    [discriminate|].
  destruct (contains (str (Kod w)) R) eqn:Hc.
  - destruct (stock_of w) as [n|e'] eqn:Hs.
    + destruct (remove_present _ _ Hc) as (R1 & Hr & Hp). rewrite Hr in H.
      apply IH in H as (w' & Hin & Hid & Hraise).
      exists w'. repeat split; simpl; auto.
      eapply Permutation_in; [symmetry; exact Hp|]. now right.
    + injection H as <- <-. exists w. repeat split; simpl; auto.
      now apply contains_In.
  - apply IH in H as (w' & Hin & Hid & Hraise). exists w'. simpl. auto.
Qed.

(** On a duplicate-free list the first loop leaves exactly the ids that no
    record matches, in their order. *)
Lemma match_loop_rest (watch_remnants : list watch) :
  forall acc offer_ids stocks rest_ids,
    NoDup offer_ids ->
    match_loop watch_remnants warehouse_id date acc offer_ids = (Ok stocks, rest_ids) ->
    rest_ids = filter (fun v => negb (matched_by watch_remnants v)) offer_ids /\
    NoDup rest_ids.
Proof.
  induction watch_remnants as [|w rest IH]; intros acc R ms R' Hnd H; simpl in H.
  - injection H as <- <-. split; [|assumption].
    symmetry. apply forallb_filter_id. now apply forallb_forall.
  - destruct (contains (str (Kod w)) R) eqn:Hc.
    + destruct (stock_of w) as [n|e] eqn:Hs; [|discriminate].
      destruct (remove_present _ _ Hc) as (R1 & Hr & Hp). rewrite Hr in H.
      destruct (remove_nodup _ _ _ Hnd Hr) as [HR1 Hnd1].
      destruct (IH _ _ _ _ Hnd1 H) as [-> Hnd']. split; [|assumption].
      rewrite HR1. clear. induction R as [|v R IHR]; simpl; [reflexivity|].
      destruct (str_eq (str (Kod w)) v); simpl; [assumption|].
      destruct (matched_by rest v); simpl; [assumption|]. now f_equal.
    + destruct (IH _ _ _ _ Hnd H) as [-> Hnd']. split; [|assumption].
      apply filter_ext_in. intros v Hv. simpl.
      destruct (str_eq (str (Kod w)) v) eqn:E; [|reflexivity].
      apply str_eq_true in E. subst v.
      apply contains_In in Hv. congruence.
Qed.

(** The shape of a successful call. *)
Lemma create_stocks_ok (watch_remnants : list watch) (offer_ids : list json)
    (stocks : list stock) :
  fst (create_stocks watch_remnants offer_ids warehouse_id date) = Ok stocks ->
  exists matched,
    match_loop watch_remnants warehouse_id date [] offer_ids =
      (Ok matched, snd (create_stocks watch_remnants offer_ids warehouse_id date)) /\
    stocks = matched ++
      map (fill warehouse_id date)
          (snd (create_stocks watch_remnants offer_ids warehouse_id date)).
Proof.
  unfold create_stocks.
  destruct (match_loop watch_remnants warehouse_id date [] offer_ids) as [[ms|e] R'];
    simpl; [|discriminate].
  intros [= <-]. exists ms. split; [reflexivity|]. apply fill_loop_eq.
Qed.

Lemma create_stocks_raise (watch_remnants : list watch) (offer_ids : list json)
    (e : exn) :
  fst (create_stocks watch_remnants offer_ids warehouse_id date) = Raise e ->
  exists w, In w watch_remnants /\ In (JStr (str (Kod w))) offer_ids /\
            stock_of w = Raise e.
Proof.
  unfold create_stocks.
  destruct (match_loop watch_remnants warehouse_id date [] offer_ids) as [[ms|e'] R'] eqn:H;
    simpl; [discriminate|].
  intros [= <-]. eapply match_loop_raise. exact H.
Qed.

End StockFacts.

(* ================================================================== *)
(** ** The examples of the specification                               *)
(* ================================================================== *)

Example count_of_one :
  stock_of (mk_watch (CStr "A1") (CStr "1") CNone) = Ok 0.
Proof. reflexivity. Qed.

Example count_of_seven :
  stock_of (mk_watch (CStr "A1") (CStr "7") CNone) = Ok 7.
Proof. reflexivity. Qed.

Example count_of_more_than_ten :
  stock_of (mk_watch (CStr "A1") (CStr ">10") CNone) = Ok 100.
Proof. reflexivity. Qed.

(** The comparison is on the text of the cell: a numeric cell 1 is "1". *)
Example count_of_numeric_one :
  stock_of (mk_watch (CStr "A1") (CInt 1) CNone) = Ok 0.
Proof. reflexivity. Qed.

Example stocks_of_the_example :
  create_stocks Sample.inventory Sample.remote_ids "wh" "t" =
  (Ok [matched_stock "wh" "t" Sample.watch_A1 100; fill "wh" "t" (JStr "B2")],
   [JStr "B2"]).
Proof. reflexivity. Qed.

Example prices_of_the_example :
  create_prices Seller.price_conversion Sample.inventory Sample.remote_ids =
  Ok [mk_price "A1" (mk_price_value 1990 "RUR")].
Proof. reflexivity. Qed.

(** A quantity that is not an integer makes the call raise, after the
    records before it have been taken out of the list. *)
Example stocks_of_a_bad_quantity :
  create_stocks [Sample.watch_bad] Sample.remote_ids "wh" "t" =
  (Raise ValueError, Sample.remote_ids).
Proof. reflexivity. Qed.

(* ================================================================== *)
(** ** Properties of [create_stocks]                                   *)
(* ================================================================== *)

(** C1.  For a duplicate-free list of remote offer ids, [create_stocks]
    returns one update per id: the result is as long as the list and its
    skus are the ids, each exactly once.  The only other way out of the call
    is the exception of a record whose code is a remote id and whose
    quantity descriptor is neither ">10", "1" nor an integer. *)
Theorem create_stocks_one_update_per_id
    (watch_remnants : list watch) (offer_ids : list json)
    (warehouse_id date : string) :
  NoDup offer_ids ->
  match fst (create_stocks watch_remnants offer_ids warehouse_id date) with
  | Ok stocks =>
      List.length stocks = List.length offer_ids /\
      Permutation (map sku stocks) offer_ids /\
      NoDup (map sku stocks)
  | Raise e =>
      exists w, In w watch_remnants /\ In (JStr (str (Kod w))) offer_ids /\
                stock_of w = Raise e
  end.
Proof.
  intros Hnd.
  destruct (fst (create_stocks watch_remnants offer_ids warehouse_id date))
    as [stocks|e] eqn:H.
  - apply create_stocks_ok in H as (ms & Hloop & ->).
    apply match_loop_ok in Hloop as (new & Hms & Hperm & _).
    simpl in Hms. subst ms.
    assert (Hsku : Permutation (map sku (new ++ map (fill warehouse_id date)
              (snd (create_stocks watch_remnants offer_ids warehouse_id date))))
              offer_ids).
    { rewrite map_app, map_map. simpl. rewrite map_id. now symmetry. }
    repeat split.
    + rewrite <- (length_map sku). now apply Permutation_length.
    + exact Hsku.
    + eapply Permutation_NoDup; [symmetry; exact Hsku | exact Hnd].
  - now apply create_stocks_raise in H.
Qed.

Lemma create_stocks_one_update_per_id_witness :
  NoDup Sample.remote_ids /\
  exists stocks,
    fst (create_stocks Sample.inventory Sample.remote_ids "wh" "2024-01-01T00:00:00Z")
      = Ok stocks /\
    List.length stocks = 2%nat /\
    Permutation (map sku stocks) Sample.remote_ids.
Proof.
  split; [exact Sample.remote_ids_nodup|].
  pose proof (create_stocks_one_update_per_id Sample.inventory Sample.remote_ids
                "wh" "2024-01-01T00:00:00Z" Sample.remote_ids_nodup) as H.
  simpl in H. eexists. split; [reflexivity|]. split; apply H.
Defined.

(** C2, as stated, fails when the remote list holds an id twice: the second
    copy of "A1" is still in the working set after the record of "A1" has
    been used, and gets the count 0 although the only record with that code
    has the descriptor ">10". *)
Lemma create_stocks_count_duplicate_id :
  exists stocks,
    fst (create_stocks Sample.inventory Sample.remote_ids_twice "wh" "d") = Ok stocks /\
    ~ Forall (count_as_specified Sample.inventory) stocks.
Proof.
  eexists. split; [reflexivity|].
  intros H. apply Forall_inv_tail, Forall_inv in H.
  destruct H as (n & Hn & [(w & Hin & _ & Hrule) | (Hm & _)]).
  - injection Hn as <-. destruct Hin as [<- | []].
    destruct Hrule as [(_ & H) | [(H & _) | (H & _)]];
      simpl in H; solve [discriminate | now apply H].
  - discriminate Hm.
Qed.

(** C2 (amended).  For a duplicate-free list of remote offer ids, every
    update that [create_stocks] returns has the count of the rule (100 for
    the text ">10", 0 for the text "1", the integer value otherwise) applied
    to a record with its sku, or the count 0 when no record has its sku. *)
Theorem create_stocks_counts
    (watch_remnants : list watch) (offer_ids : list json)
    (warehouse_id date : string) (stocks : list stock) :
  NoDup offer_ids ->
  fst (create_stocks watch_remnants offer_ids warehouse_id date) = Ok stocks ->
  Forall (count_as_specified watch_remnants) stocks.
Proof.
  intros Hnd H.
  apply create_stocks_ok in H as (ms & Hloop & ->).
  destruct (match_loop_rest _ _ _ _ _ _ _ Hnd Hloop) as [Hrest _].
  apply match_loop_ok in Hloop as (new & Hms & _ & Hall).
  simpl in Hms. subst ms.
  apply Forall_app. split.
  - eapply Forall_impl; [|exact Hall]. simpl.
    intros s (w & n & Hin & Hn & ->).
    exists n. split; [reflexivity|]. left. exists w.
    repeat split; [assumption | now apply stock_of_rule].
  - rewrite Hrest. apply Forall_forall. intros s Hs.
    apply in_map_iff in Hs as (v & <- & Hv).
    apply filter_In in Hv as [_ Hv].
    exists 0. split; [reflexivity|]. right.
    split; [|reflexivity]. simpl. now destruct (matched_by watch_remnants v).
Qed.

Lemma create_stocks_counts_witness :
  Forall (count_as_specified Sample.inventory)
    [matched_stock "wh" "d" Sample.watch_A1 100; fill "wh" "d" (JStr "B2")].
Proof.
  apply (create_stocks_counts Sample.inventory Sample.remote_ids "wh" "d").
  - exact Sample.remote_ids_nodup.
  - reflexivity.
Defined.

(** *** Running the reconciliation twice *)

Section Rerun.

Variables (warehouse_id d1 d2 : string).

(** The first loop does not look at the clock: with another timestamp it
    makes the same decisions and leaves the same working set. *)
Lemma match_loop_with_date (watch_remnants : list watch) :
  forall acc offer_ids,
    match_loop watch_remnants warehouse_id d2 (map (with_date d2) acc) offer_ids =
    (rmap (map (with_date d2))
          (fst (match_loop watch_remnants warehouse_id d1 acc offer_ids)),
     snd (match_loop watch_remnants warehouse_id d1 acc offer_ids)).
Proof.
  induction watch_remnants as [|w rest IH]; intros acc R; simpl; [reflexivity|].
  destruct (contains (str (Kod w)) R); [|apply IH].
  destruct (stock_of w) as [n|e]; [|reflexivity].
  destruct (remove (str (Kod w)) R) as [R1|e]; [|reflexivity].
  rewrite <- IH, map_app. reflexivity.
Qed.

End Rerun.

(** C4, as stated, fails: the first call takes the matched ids out of the
    list object, so a second call on that same object returns only the
    zero-stock updates of the unmatched ids.  Here the update of "A1" is in
    the first result and, timestamps aside, not in the second. *)
Lemma create_stocks_rerun_on_same_list :
  exists first second,
    fst (create_stocks Sample.inventory Sample.remote_ids "wh" "t1") = Ok first /\
    fst (create_stocks Sample.inventory
           (snd (create_stocks Sample.inventory Sample.remote_ids "wh" "t1"))
           "wh" "t2") = Ok second /\
    ~ (forall s, In s (map (with_date "") first) -> In s (map (with_date "") second)).
Proof.
  eexists. eexists. split; [reflexivity|]. split; [reflexivity|].
  intros H. specialize (H _ (or_introl eq_refl)).
  simpl in H. destruct H as [H | []]. discriminate H.
Qed.

(** C4 (amended).  Two calls of [create_stocks] on the same inventory and on
    equal lists of remote ids (each call on a list that no earlier call has
    consumed) give the same outcome, update for update and in the same
    order, except for the timestamp; they also leave equal working sets. *)
Theorem create_stocks_rerun_on_fresh_list
    (watch_remnants : list watch) (offer_ids : list json)
    (warehouse_id d1 d2 : string) :
  fst (create_stocks watch_remnants offer_ids warehouse_id d2) =
    rmap (map (with_date d2))
         (fst (create_stocks watch_remnants offer_ids warehouse_id d1)) /\
  snd (create_stocks watch_remnants offer_ids warehouse_id d2) =
    snd (create_stocks watch_remnants offer_ids warehouse_id d1).
Proof.
  unfold create_stocks.
  pose proof (match_loop_with_date warehouse_id d1 d2 watch_remnants [] offer_ids) as H.
  simpl in H. rewrite H. clear H.
  destruct (match_loop watch_remnants warehouse_id d1 [] offer_ids) as [[ms|e] R'];
    simpl; [|split; reflexivity].
  split; [|reflexivity].
  rewrite !fill_loop_eq, map_app, map_map. reflexivity.
Qed.

(** *** The working set after the call *)

(** C9, as stated, fails when the remote list holds an id twice: one copy of
    the matched id "A1" is still in the list after the call. *)
Lemma create_stocks_leaves_duplicate_id :
  exists stocks,
    fst (create_stocks Sample.inventory Sample.remote_ids_twice "wh" "d") = Ok stocks /\
    In (JStr "A1") (snd (create_stocks Sample.inventory Sample.remote_ids_twice "wh" "d")) /\
    matched_by Sample.inventory (JStr "A1") = true.
Proof.
  eexists. split; [reflexivity|]. split; [now left | reflexivity].
Qed.

(** C9 (amended).  [create_stocks] mutates its [offer_ids] argument: when the
    list is duplicate-free, after the call has returned it holds exactly the
    original ids that no inventory record matches, in their original order;
    every matched code has been removed. *)
Theorem create_stocks_consumes_offer_ids
    (watch_remnants : list watch) (offer_ids : list json)
    (warehouse_id date : string) (stocks : list stock) :
  NoDup offer_ids ->
  fst (create_stocks watch_remnants offer_ids warehouse_id date) = Ok stocks ->
  snd (create_stocks watch_remnants offer_ids warehouse_id date) =
    filter (fun v => negb (matched_by watch_remnants v)) offer_ids /\
  (forall v, In v (snd (create_stocks watch_remnants offer_ids warehouse_id date)) <->
             In v offer_ids /\ matched_by watch_remnants v = false).
Proof.
  intros Hnd H.
  apply create_stocks_ok in H as (ms & Hloop & _).
  destruct (match_loop_rest _ _ _ _ _ _ _ Hnd Hloop) as [Hrest _].
  split; [exact Hrest|].
  intros v. rewrite Hrest, filter_In.
  destruct (matched_by watch_remnants v); simpl; intuition congruence.
Qed.

Lemma create_stocks_consumes_offer_ids_witness :
  snd (create_stocks Sample.inventory Sample.remote_ids "wh" "d") = [JStr "B2"].
Proof.
  apply (create_stocks_consumes_offer_ids Sample.inventory Sample.remote_ids "wh" "d"
           [matched_stock "wh" "d" Sample.watch_A1 100; fill "wh" "d" (JStr "B2")]).
  - exact Sample.remote_ids_nodup.
  - reflexivity.
Defined.

(* ================================================================== *)
(** ** Properties of [create_prices]                                   *)
(* ================================================================== *)

Section PriceFacts.

Variable price_conversion : cell -> result cell.

(** A successful loop appended one entry per record whose code is a remote
    id, in the order of the records. *)
Lemma price_loop_ok (offer_ids : list json) (watch_remnants : list watch) :
  forall acc prices,
    price_loop price_conversion watch_remnants offer_ids acc = Ok prices ->
    exists new,
      prices = acc ++ new /\
      Forall2 (priced_from price_conversion)
        (filter (fun w => contains (str (Kod w)) offer_ids) watch_remnants) new.
Proof.
  induction watch_remnants as [|w rest IH]; intros acc prices H; simpl in H.
  - injection H as <-. exists []. rewrite app_nil_r. split; [reflexivity | constructor].
  - simpl. destruct (contains (str (Kod w)) offer_ids) eqn:Hc.
    + destruct (price_conversion (Tsena w)) as [converted|e] eqn:Hp; simpl in H;
        [|discriminate].
      destruct (int converted) as [v|e] eqn:Hv; simpl in H; [|discriminate].
      apply IH in H as (new & -> & Hall).
      eexists (_ :: new). split; [now rewrite <- app_assoc|].
      constructor; [|assumption].
      repeat split. exists converted. auto.
    + apply IH in H as (new & -> & Hall). exists new. auto.
Qed.

(** An id that no record matches plays no part in the loop. *)
Lemma price_loop_unmatched_id (v : json) (offer_ids : list json)
    (watch_remnants : list watch) :
  matched_by watch_remnants v = false ->
  forall acc,
    price_loop price_conversion watch_remnants (v :: offer_ids) acc =
    price_loop price_conversion watch_remnants offer_ids acc.
Proof.
  induction watch_remnants as [|w rest IH]; intros Hm acc; simpl; [reflexivity|].
  simpl in Hm. apply orb_false_elim in Hm as [Hw Hrest].
  rewrite Hw. simpl.
  destruct (contains (str (Kod w)) offer_ids).
  - destruct (price_conversion (Tsena w)) as [converted|e]; simpl; [|reflexivity].
    destruct (int converted) as [n|e]; simpl; [|reflexivity].
    now apply IH.
  - now apply IH.
Qed.

Lemma Forall2_In_r {A B} (R : A -> B -> Prop) (l1 : list A) (l2 : list B) (b : B) :
  Forall2 R l1 l2 -> In b l2 -> exists a, In a l1 /\ R a b.
Proof.
  intros H. induction H as [|a b' l1 l2 Hab _ IH]; simpl; [contradiction|].
  intros [<- | Hin].
  - exists a. auto.
  - destruct (IH Hin) as (a' & Ha' & HR). exists a'. auto.
Qed.

Lemma Forall2_filter_length {A B} (R : A -> B -> Prop) (f : A -> bool) (g : B -> bool)
    (l1 : list A) (l2 : list B) :
  (forall a b, R a b -> f a = g b) ->
  Forall2 R l1 l2 ->
  List.length (filter f l1) = List.length (filter g l2).
Proof.
  intros Hfg H. induction H as [|a b l1 l2 Hab _ IH]; simpl; [reflexivity|].
  rewrite (Hfg a b Hab). destruct (g b); simpl; now rewrite IH.
Qed.

End PriceFacts.

(** C5.  Every entry that [create_prices] returns has an id that is a member
    of the remote list and the code of some inventory record; a remote id
    that no record matches gets no entry, and its presence in the list
    changes nothing in the outcome of the call. *)
Theorem create_prices_only_known_offers
    (price_conversion : cell -> result cell)
    (watch_remnants : list watch) (offer_ids : list json) (prices : list price) :
  create_prices price_conversion watch_remnants offer_ids = Ok prices ->
  Forall (fun p => In (JStr (id p)) offer_ids /\
                   exists w, In w watch_remnants /\ str (Kod w) = id p) prices /\
  (forall v, In v offer_ids -> matched_by watch_remnants v = false ->
             forall p, In p prices -> JStr (id p) <> v) /\
  (forall v, matched_by watch_remnants v = false ->
             create_prices price_conversion watch_remnants (v :: offer_ids) = Ok prices).
Proof.
  intros H.
  assert (Hall : Forall (fun p => In (JStr (id p)) offer_ids /\
                   exists w, In w watch_remnants /\ str (Kod w) = id p) prices).
  { apply price_loop_ok in H as (new & -> & Hall). simpl.
    apply Forall_forall. intros p Hp.
    destruct (Forall2_In_r _ _ _ _ Hall Hp) as (w & Hw & Hid & _).
    apply filter_In in Hw as [Hin Hc]. apply contains_In in Hc.
    rewrite Hid. split; [assumption|]. exists w. auto. }
  split; [exact Hall|]. split.
  - intros v _ Hm p Hp <-.
    rewrite Forall_forall in Hall. destruct (Hall p Hp) as (_ & w & Hin & Hid).
    assert (matched_by watch_remnants (JStr (id p)) = true); [|congruence].
    apply existsb_exists. exists w. split; [assumption|].
    apply str_eq_true. now rewrite Hid.
  - intros v Hm. unfold create_prices.
    rewrite price_loop_unmatched_id by assumption. exact H.
Qed.

Lemma create_prices_only_known_offers_witness :
  Forall (fun p => In (JStr (id p)) Sample.remote_ids /\
                   exists w, In w Sample.inventory /\ str (Kod w) = id p)
    [mk_price "A1" (mk_price_value 1990 "RUR")].
Proof.
  apply (create_prices_only_known_offers Seller.price_conversion
           Sample.inventory Sample.remote_ids).
  reflexivity.
Defined.

(* ================================================================== *)
(** ** Inventory codes listed more than once                           *)
(* ================================================================== *)

Section DuplicateCodes.

Variables warehouse_id date : string.

(** On a duplicate-free working set that holds [c], the first loop emits
    for the code [c] the update of the first record with that code, and no
    other. *)
Lemma match_loop_first (c : string) (w1 : watch) (watch_remnants : list watch) :
  forall acc offer_ids stocks rest_ids,
    NoDup offer_ids -> In (JStr c) offer_ids ->
    find (fun w => String.eqb (str (Kod w)) c) watch_remnants = Some w1 ->
    match_loop watch_remnants warehouse_id date acc offer_ids = (Ok stocks, rest_ids) ->
    exists new n,
      stocks = acc ++ new /\ stock_of w1 = Ok n /\
      filter (fun s => str_eq c (sku s)) new = [matched_stock warehouse_id date w1 n].
Proof.
  induction watch_remnants as [|w rest IH]; intros acc R ms R' Hnd Hin Hfind H;
    simpl in Hfind, H; [discriminate|].
  destruct (String.eqb_spec (str (Kod w)) c) as [Hc|Hc].
  - injection Hfind as <-. subst c.
    apply contains_In in Hin. rewrite Hin in H.
    destruct (stock_of w) as [n|e] eqn:Hs; [|discriminate].
    destruct (remove_present _ _ Hin) as (R1 & Hr & _). rewrite Hr in H.
    destruct (remove_nodup _ _ _ Hnd Hr) as [HR1 _].
    apply match_loop_ok in H as (new & -> & Hperm & _).
    exists (matched_stock warehouse_id date w n :: new), n.
    split; [now rewrite <- app_assoc|]. split; [reflexivity|].
    simpl. rewrite String.eqb_refl. f_equal.
    apply filter_none.
    intros s Hnew. destruct (str_eq (str (Kod w)) (sku s)) eqn:E; [|reflexivity].
    apply str_eq_true in E.
    assert (Hin1 : In (JStr (str (Kod w))) R1).
    { eapply Permutation_in; [symmetry; exact Hperm|].
      apply in_or_app. left. rewrite <- E. now apply in_map. }
    clear Hnew.
    rewrite HR1 in Hin1. apply filter_In in Hin1 as [_ Hneg].
    simpl in Hneg. now rewrite String.eqb_refl in Hneg.
  - destruct (contains (str (Kod w)) R) eqn:Hcw.
    + destruct (stock_of w) as [n'|e] eqn:Hs; [|discriminate].
      destruct (remove_present _ _ Hcw) as (R1 & Hr & _). rewrite Hr in H.
      destruct (remove_nodup _ _ _ Hnd Hr) as [HR1 Hnd1].
      assert (Hin1 : In (JStr c) R1).
      { rewrite HR1. apply filter_In. split; [assumption|]. simpl.
        destruct (String.eqb_spec (str (Kod w)) c); [contradiction | reflexivity]. }
      destruct (IH _ _ _ _ Hnd1 Hin1 Hfind H) as (new & n & -> & Hn & Hf).
      exists (matched_stock warehouse_id date w n' :: new), n.
      split; [now rewrite <- app_assoc|]. split; [assumption|].
      simpl. destruct (String.eqb_spec c (str (Kod w))); [congruence | assumption].
    + exact (IH _ _ _ _ Hnd Hin Hfind H).
Qed.

End DuplicateCodes.

(** C10, as stated, fails when the remote list holds the id twice as well:
    each of the two records with the code "A1" then finds a copy of "A1" in
    the working set, and [create_stocks] emits two updates for that code. *)
Lemma create_stocks_duplicate_code_duplicate_id :
  exists s1 s2,
    fst (create_stocks Sample.inventory_twice Sample.remote_ids_twice "wh" "d")
      = Ok [s1; s2] /\
    sku s1 = JStr "A1" /\ sku s2 = JStr "A1".
Proof.
  eexists. eexists. split; [reflexivity|]. split; reflexivity.
Qed.

(** C10 (amended).  Let the remote list be duplicate-free and hold the code
    [c], and let [first] be the first inventory record with the code [c].
    Then [create_stocks] emits exactly one update with the sku [c], the one
    of [first], however many records have that code, whereas [create_prices]
    emits as many entries with the id [c] as there are records with that
    code. *)
Theorem duplicate_inventory_codes
    (price_conversion : cell -> result cell)
    (watch_remnants : list watch) (offer_ids : list json)
    (warehouse_id date c : string) (first : watch) :
  NoDup offer_ids -> In (JStr c) offer_ids ->
  find (fun w => String.eqb (str (Kod w)) c) watch_remnants = Some first ->
  (forall stocks,
     fst (create_stocks watch_remnants offer_ids warehouse_id date) = Ok stocks ->
     exists n, stock_of first = Ok n /\
       filter (fun s => str_eq c (sku s)) stocks =
         [matched_stock warehouse_id date first n]) /\
  (forall prices,
     create_prices price_conversion watch_remnants offer_ids = Ok prices ->
     List.length (filter (fun p => String.eqb (id p) c) prices) =
     List.length (filter (fun w => String.eqb (str (Kod w)) c) watch_remnants)).
Proof.
  intros Hnd Hin Hfind. split.
  - intros stocks H.
    apply create_stocks_ok in H as (ms & Hloop & ->).
    destruct (match_loop_rest _ _ _ _ _ _ _ Hnd Hloop) as [Hrest _].
    destruct (match_loop_first _ _ _ _ _ _ _ _ _ Hnd Hin Hfind Hloop)
      as (new & n & Hms & Hn & Hf).
    simpl in Hms. subst ms. exists n. split; [assumption|].
    rewrite filter_app, Hf.
    replace (filter _ (map _ _)) with (@nil stock); [reflexivity|].
    symmetry. apply filter_none.
    intros s Hs. apply in_map_iff in Hs as (v & <- & Hv). simpl.
    destruct (str_eq c v) eqn:E; [|reflexivity].
    apply str_eq_true in E. subst v.
    rewrite Hrest in Hv. apply filter_In in Hv as [_ Hv].
    apply find_some in Hfind as [Hfirst Hcode]. apply String.eqb_eq in Hcode.
    assert (Hm : matched_by watch_remnants (JStr c) = true).
    { apply existsb_exists. exists first. split; [assumption|].
      apply str_eq_true. now rewrite Hcode. }
    rewrite Hm in Hv. discriminate.
  - intros prices H.
    apply price_loop_ok in H as (new & -> & Hall). simpl.
    rewrite <- (Forall2_filter_length _ (fun w => String.eqb (str (Kod w)) c) _ _ _
                  (fun w p (Hp : priced_from price_conversion w p) =>
                     eq_sym (f_equal (fun s => String.eqb s c) (proj1 Hp)))
                  Hall).
    f_equal. apply filter_absorb.
    intros w Hw. apply String.eqb_eq in Hw. rewrite Hw. now apply contains_In.
Qed.

Lemma duplicate_inventory_codes_witness :
  (exists n, stock_of Sample.watch_A1 = Ok n /\
     filter (fun s => str_eq "A1" (sku s))
       [matched_stock "wh" "d" Sample.watch_A1 100; fill "wh" "d" (JStr "B2")] =
       [matched_stock "wh" "d" Sample.watch_A1 n]) /\
  List.length (filter (fun p => String.eqb (id p) "A1")
                 [mk_price "A1" (mk_price_value 1990 "RUR");
                  mk_price "A1" (mk_price_value 2490 "RUR")]) = 2%nat.
Proof.
  destruct (duplicate_inventory_codes Seller.price_conversion
              Sample.inventory_twice Sample.remote_ids "wh" "d" "A1" Sample.watch_A1
              Sample.remote_ids_nodup (or_introl eq_refl) eq_refl) as [Hstocks Hprices].
  split.
  - apply Hstocks. reflexivity.
  - apply Hprices. reflexivity.
Defined.

(* ================================================================== *)
(** ** The batcher                                                     *)
(* ================================================================== *)

Section DivideFacts.

Context {A : Type}.
Variable n : nat.
Hypothesis n_positive : (0 < n)%nat.

Lemma divide_from_concat (fuel : nat) :
  forall lst : list A,
    (List.length lst <= fuel)%nat -> List.concat (Seller.divide_from fuel lst n) = lst.
Proof.
  induction fuel as [|fuel IH]; intros lst Hlen.
  - destruct lst; [reflexivity | simpl in Hlen; lia].
  - destruct lst as [|a l]; [reflexivity|].
    cbn [Seller.divide_from List.concat]. rewrite IH.
    + apply firstn_skipn.
    + rewrite length_skipn. cbn [List.length] in *. lia.
Qed.

Lemma divide_from_bounds (fuel : nat) :
  forall lst : list A,
    Forall (fun c => (List.length c <= n)%nat /\ c <> [])
           (Seller.divide_from fuel lst n).
Proof.
  induction fuel as [|fuel IH]; intros lst; [constructor|].
  destruct lst as [|a l]; [constructor|].
  cbn [Seller.divide_from]. constructor; [|apply IH]. split.
  - apply firstn_le_length.
  - destruct n; [lia | discriminate].
Qed.

Lemma divide_from_full (fuel : nat) :
  forall lst : list A,
    Forall (fun c => List.length c = n)
           (removelast (Seller.divide_from fuel lst n)).
Proof.
  induction fuel as [|fuel IH]; intros lst; [constructor|].
  destruct lst as [|a l]; [constructor|].
  cbn [Seller.divide_from].
  destruct (Seller.divide_from fuel (skipn n (a :: l)) n) as [|c rest] eqn:E.
  - constructor.
  - change (removelast (firstn n (a :: l) :: c :: rest))
      with (firstn n (a :: l) :: removelast (c :: rest)).
    constructor.
    + apply firstn_length_le.
      destruct (Nat.le_gt_cases n (List.length (a :: l))) as [|Hlt]; [assumption|].
      rewrite skipn_all2 in E by lia.
      destruct fuel; discriminate.
    + rewrite <- E. apply IH.
Qed.

End DivideFacts.

(** The sizes of the chunks depend on the length of the input only. *)
Lemma divide_from_sizes {A B} (n fuel : nat) :
  forall (l : list A) (l' : list B),
    List.length l = List.length l' ->
    map (@List.length A) (Seller.divide_from fuel l n) =
    map (@List.length B) (Seller.divide_from fuel l' n).
Proof.
  induction fuel as [|fuel IH]; intros l l' Hlen; [reflexivity|].
  destruct l as [|a l], l' as [|b l']; try discriminate; [reflexivity|].
  cbn [Seller.divide_from map]. f_equal.
  - rewrite !length_firstn. now rewrite Hlen.
  - apply IH. rewrite !length_skipn. now rewrite Hlen.
Qed.

(** C6.  For a positive maximum, [divide] cuts the input into contiguous
    chunks: their concatenation is the input, every chunk has at most the
    maximum length and is not empty, every chunk but the last has exactly the
    maximum length, an empty input gives no chunk, and 4500 elements with the
    maximum 2000 give chunks of 2000, 2000 and 500 elements. *)
Theorem divide_is_a_partition {A} (lst : list A) (n : nat) :
  (0 < n)%nat ->
  List.concat (Seller.divide lst n) = lst /\
  Forall (fun c => (List.length c <= n)%nat /\ c <> []) (Seller.divide lst n) /\
  Forall (fun c => List.length c = n) (removelast (Seller.divide lst n)) /\
  (lst = [] -> Seller.divide lst n = []) /\
  (List.length lst = 4500%nat -> n = 2000%nat ->
   map (@List.length A) (Seller.divide lst n) = [2000; 2000; 500]%nat).
Proof.
  intros Hn. unfold Seller.divide. repeat split.
  - now apply divide_from_concat.
  - now apply divide_from_bounds.
  - now apply divide_from_full.
  - intros ->. reflexivity.
  - intros Hlen ->.
    rewrite (divide_from_sizes 2000 (List.length lst) lst (repeat tt 4500))
      by now rewrite repeat_length.
    rewrite Hlen. vm_compute. reflexivity.
Qed.

Lemma divide_is_a_partition_witness :
  List.concat (Seller.divide [1; 2; 3; 4; 5] 2) = [1; 2; 3; 4; 5] /\
  Seller.divide [1; 2; 3; 4; 5] 2 = [[1; 2]; [3; 4]; [5]].
Proof.
  split.
  - apply (divide_is_a_partition [1; 2; 3; 4; 5] 2). lia.
  - reflexivity.
Defined.

(* ================================================================== *)
(** ** The pagination fetch                                            *)
(* ================================================================== *)

Section FetchFacts.

Variable World : Type.
Variable http : World -> request -> reply * World.

Lemma stops_on_error_lift {A} (r : result A) : stops_on_error (lift World r).
Proof.
  intros st. exists []. destruct r; simpl; rewrite app_nil_r; split;
    solve [reflexivity | discriminate].
Qed.

Lemma stops_on_error_ret {A} (a : A) : stops_on_error (ret World a).
Proof.
  intros st. exists []. simpl. rewrite app_nil_r. split;
    solve [reflexivity | discriminate].
Qed.

Lemma stops_on_error_bind {A B} (m : M World A) (k : A -> M World B) :
  stops_on_error m -> (forall a, stops_on_error (k a)) ->
  stops_on_error (mbind World m k).
Proof.
  intros Hm Hk st. destruct (Hm st) as (new & Htr & Herr).
  unfold mbind. destruct (m st) as [[a|e|] st'] eqn:E; simpl in *.
  - destruct (Hk a st') as (new' & Htr' & Herr').
    exists (new ++ new'). rewrite Htr', Htr, app_assoc. split; [reflexivity|].
    rewrite existsb_app. intros H. apply orb_prop in H as [H|H].
    + specialize (Herr H). discriminate.
    + now apply Herr'.
  - exists new. split; [assumption|].
    intros H. specialize (Herr H). injection Herr as ->. reflexivity.
  - exists new. split; [assumption|].
    intros H. specialize (Herr H). discriminate.
Qed.

Lemma stops_on_error_get_product_list (page : json) (campaign_id access_token : string) :
  stops_on_error (get_product_list World http page campaign_id access_token).
Proof.
  intros st. unfold get_product_list, mbind, send.
  destruct (http (world st) (GetOfferMappingEntries campaign_id access_token page))
    as [rp w'] eqn:E.
  exists [Sent (GetOfferMappingEntries campaign_id access_token page) rp].
  destruct rp as [e|status_code body]; simpl.
  - split; [reflexivity | discriminate].
  - unfold raise_for_status.
    destruct ((400 <=? status_code) && (status_code <? 600)); simpl.
    + split; reflexivity.
    + split; [|discriminate].
      destruct body as [j|]; simpl; [|reflexivity].
      destruct (get j "result"); reflexivity.
Qed.

Lemma stops_on_error_page_loop (campaign_id market_token : string) (fuel : nat) :
  forall page product_list,
    stops_on_error (page_loop World http fuel campaign_id market_token page product_list).
Proof.
  induction fuel as [|fuel IH]; intros page product_list.
  - intros st. exists []. simpl. rewrite app_nil_r. split;
      solve [reflexivity | discriminate].
  - cbn [page_loop].
    apply stops_on_error_bind; [apply stops_on_error_get_product_list|].
    intros some_prod.
    apply stops_on_error_bind; [apply stops_on_error_lift|]. intros entries.
    apply stops_on_error_bind; [apply stops_on_error_lift|]. intros product_list'.
    apply stops_on_error_bind; [apply stops_on_error_lift|]. intros paging.
    apply stops_on_error_bind; [apply stops_on_error_lift|]. intros page'.
    destruct (negb (truthy page')); [apply stops_on_error_ret | apply IH].
Qed.

Lemma stops_on_error_get_offer_ids (fuel : nat) (campaign_id market_token : string) :
  stops_on_error (get_offer_ids World http fuel campaign_id market_token).
Proof.
  apply stops_on_error_bind; [apply stops_on_error_page_loop|].
  intros product_list. apply stops_on_error_lift.
Qed.

(** Line 189-191 on products that all carry an offer. *)
Lemma sku_loop_ok (product_list shop_skus : list json) :
  Forall2 (fun product s => shop_sku product = Ok s) product_list shop_skus ->
  forall offer_ids, sku_loop product_list offer_ids = Ok (offer_ids ++ shop_skus).
Proof.
  induction 1 as [|product s products skus Hs _ IH]; intros offer_ids; simpl.
  - now rewrite app_nil_r.
  - rewrite Hs. simpl. rewrite IH, <- app_assoc. reflexivity.
Qed.

(** The loop follows a run of the listing endpoint to its last page, one
    unit of fuel per page, and collects the entries of all pages in order. *)
Lemma page_loop_serves (campaign_id market_token : string)
    (w : World) (page : json) (pages : list (list json)) (w' : World) :
  serves_pages http campaign_id market_token w page pages w' ->
  forall fuel product_list tr,
    (List.length pages <= fuel)%nat ->
    exists tr',
      page_loop World http fuel campaign_id market_token page product_list
        (mk_state w tr)
      = (Return (product_list ++ List.concat pages), mk_state w' tr').
Proof.
  induction 1 as [w page sc body entries next w' Hhttp Hsc Hread Hlast
                 |w page sc body entries next w' pages w'' Hhttp Hsc Hread Hmore _ IH];
    intros fuel product_list tr Hfuel;
    (destruct fuel as [|fuel]; [simpl in Hfuel; lia|]);
    destruct Hread as (some_prod & paging & Hres & Hent & Hpag & Hnext);
    cbn [page_loop]; unfold mbind at 1, get_product_list, mbind, send; simpl;
    rewrite Hhttp; simpl; rewrite Hsc; simpl; rewrite Hres; simpl;
    rewrite Hent; simpl; rewrite Hpag; simpl; rewrite Hnext; simpl.
  - rewrite Hlast. simpl. rewrite app_nil_r. unfold ret. eauto.
  - rewrite Hmore. simpl.
    destruct (IH fuel (product_list ++ entries)
                (tr ++ [Sent (GetOfferMappingEntries campaign_id market_token page)
                          (Response sc (Some body))])) as (tr' & ->).
    + simpl in Hfuel. lia.
    + rewrite <- app_assoc. eauto.
Qed.

End FetchFacts.

(** C7, as stated, fails for a status outside 2xx that [raise_for_status]
    lets through: a listing answered with the status 300 and a well-formed
    body is read like a success, and the ids are returned. *)
Lemma get_offer_ids_returns_on_status_300 :
  existsb non_2xx_reply
    (trace (snd (get_offer_ids unit Sample.multiple_choices 3 "fbs" "token"
                   (mk_state tt []))))
    = true /\
  fst (get_offer_ids unit Sample.multiple_choices 3 "fbs" "token" (mk_state tt []))
    = Return [JStr "A1"].
Proof.
  split; reflexivity.
Qed.

(** C7 (amended).  If any page request of the pagination fetch is answered
    with a client-error or server-error status (4xx or 5xx), [get_offer_ids]
    raises [HTTPError] to its caller; it returns no list, whatever the pages
    fetched before. *)
Theorem get_offer_ids_raises_on_error_status
    (World : Type) (http : World -> request -> reply * World)
    (fuel : nat) (campaign_id market_token : string) (w : World) :
  existsb error_reply
    (trace (snd (get_offer_ids World http fuel campaign_id market_token (mk_state w []))))
    = true ->
  fst (get_offer_ids World http fuel campaign_id market_token (mk_state w []))
    = Raised HTTPError.
Proof.
  destruct (stops_on_error_get_offer_ids World http fuel campaign_id market_token
              (mk_state w [])) as (new & Htr & Herr).
  simpl in Htr. rewrite Htr. exact Herr.
Qed.

Lemma get_offer_ids_raises_on_error_status_witness :
  fst (get_offer_ids unit Sample.second_page_fails 5 "fbs" "token" (mk_state tt []))
    = Raised HTTPError.
Proof.
  apply (get_offer_ids_raises_on_error_status unit Sample.second_page_fails 5
           "fbs" "token" tt).
  reflexivity.
Defined.

(** C8.  In every run in which the server, page after page, comes to a page
    whose [nextPageToken] is falsy, the loop of [get_offer_ids] stops after
    that page (any fuel that covers the pages is enough) and the call
    returns the [shopSku] of every entry of every page, in the order of the
    pages and of their entries, duplicates included. *)
Theorem get_offer_ids_collects_all_pages
    (World : Type) (http : World -> request -> reply * World)
    (campaign_id market_token : string) (w w' : World)
    (pages : list (list json)) (offer_ids : list json) :
  serves_pages http campaign_id market_token w (JStr "") pages w' ->
  Forall2 (fun product s => shop_sku product = Ok s) (List.concat pages) offer_ids ->
  forall fuel tr,
    (List.length pages <= fuel)%nat ->
    fst (get_offer_ids World http fuel campaign_id market_token (mk_state w tr))
      = Return offer_ids /\
    world (snd (get_offer_ids World http fuel campaign_id market_token (mk_state w tr)))
      = w'.
Proof.
  intros Hrun Hskus fuel tr Hfuel.
  destruct (page_loop_serves World http _ _ _ _ _ _ Hrun fuel [] tr Hfuel) as (tr' & Hloop).
  unfold get_offer_ids, mbind. rewrite Hloop. simpl.
  rewrite (sku_loop_ok _ _ Hskus). simpl. split; reflexivity.
Qed.

Lemma get_offer_ids_collects_all_pages_witness :
  fst (get_offer_ids unit Sample.two_pages 2 "fbs" "token" (mk_state tt []))
    = Return [JStr "A1"; JStr "B2"; JStr "C3"].
Proof.
  apply (get_offer_ids_collects_all_pages unit Sample.two_pages "fbs" "token" tt tt
           [[Sample.entry "A1"; Sample.entry "B2"]; [Sample.entry "C3"]]).
  - eapply serves_next_page.
    + reflexivity.
    + reflexivity.
    + eexists. eexists. repeat split; reflexivity.
    + reflexivity.
    + eapply serves_last_page.
      * reflexivity.
      * reflexivity.
      * eexists. eexists. repeat split; reflexivity.
      * reflexivity.
  - repeat constructor.
  - simpl. lia.
Defined.

(* ================================================================== *)
(** ** The orchestrator                                                *)
(* ================================================================== *)

Section OrchestratorFacts.

Variable price_conversion : cell -> result cell.
Variable World : Type.
Variable http : World -> request -> reply * World.
Variable utcnow : World -> string.

(** A property of events that every listing request has. *)
Variable P : event -> bool.
Hypothesis P_listing : forall c t page rp, P (Sent (GetOfferMappingEntries c t page) rp) = true.
Hypothesis P_printed : forall msg, P (Printed msg) = true.

Lemma preserves_ret {A} (a : A) : preserves P (ret World a).
Proof. intros st H. exact H. Qed.

Lemma preserves_lift {A} (r : result A) : preserves P (lift World r).
Proof. intros st H. destruct r; exact H. Qed.

Lemma preserves_bind {A B} (m : M World A) (k : A -> M World B) :
  preserves P m -> (forall a, preserves P (k a)) -> preserves P (mbind World m k).
Proof.
  intros Hm Hk st H. specialize (Hm st H). unfold mbind.
  destruct (m st) as [[a|e|] st']; simpl in *; [now apply Hk | assumption..].
Qed.

Lemma preserves_send (rq : request) :
  (forall rp, P (Sent rq rp) = true) -> preserves P (send World http rq).
Proof.
  intros Hrq st H. unfold send. destruct (http (world st) rq) as [rp w]. simpl.
  rewrite forallb_app, H. simpl. now rewrite Hrq.
Qed.

Lemma preserves_exchange {A} (rq : request) (k : reply -> M World A) :
  (forall rp, P (Sent rq rp) = true) -> (forall rp, preserves P (k rp)) ->
  preserves P (mbind World (send World http rq) k).
Proof.
  intros Hrq Hk. apply preserves_bind; [now apply preserves_send | exact Hk].
Qed.

Lemma preserves_get_product_list (page : json) (campaign_id access_token : string) :
  preserves P (get_product_list World http page campaign_id access_token).
Proof.
  apply preserves_exchange; [intros rp; apply P_listing|].
  intros [e|status_code body]; [intros st H; exact H|].
  apply preserves_bind; [apply preserves_lift|]. intros _.
  apply preserves_bind; [apply preserves_lift|]. intros response_object.
  apply preserves_lift.
Qed.

Lemma preserves_page_loop (campaign_id market_token : string) (fuel : nat) :
  forall page product_list,
    preserves P (page_loop World http fuel campaign_id market_token page product_list).
Proof.
  induction fuel as [|fuel IH]; intros page product_list; [intros st H; exact H|].
  cbn [page_loop].
  apply preserves_bind; [apply preserves_get_product_list|]. intros some_prod.
  apply preserves_bind; [apply preserves_lift|]. intros entries.
  apply preserves_bind; [apply preserves_lift|]. intros product_list'.
  apply preserves_bind; [apply preserves_lift|]. intros paging.
  apply preserves_bind; [apply preserves_lift|]. intros page'.
  destruct (negb (truthy page')); [apply preserves_ret | apply IH].
Qed.

Lemma preserves_get_offer_ids (fuel : nat) (campaign_id market_token : string) :
  preserves P (get_offer_ids World http fuel campaign_id market_token).
Proof.
  apply preserves_bind; [apply preserves_page_loop|].
  intros product_list. apply preserves_lift.
Qed.

Lemma preserves_for_each {A} (submit : A -> M World json) (chunks : list A) :
  Forall (fun c => preserves P (submit c)) chunks ->
  preserves P (for_each World chunks submit).
Proof.
  induction 1 as [|c rest Hc _ IH]; cbn [for_each]; [apply preserves_ret|].
  apply preserves_bind; [exact Hc | intros _; exact IH].
Qed.

Lemma preserves_update_stocks (stocks : list stock) (campaign_id access_token : string) :
  (forall rp, P (Sent (PutStocks campaign_id access_token stocks) rp) = true) ->
  preserves P (update_stocks World http stocks campaign_id access_token).
Proof.
  intros Hput. apply preserves_exchange; [exact Hput|].
  intros [e|status_code body]; [intros st H; exact H|].
  apply preserves_bind; [apply preserves_lift|]. intros _. apply preserves_lift.
Qed.

(** What [main] does for one channel stays within [P] as soon as the stock
    submissions of at most 2000 updates do: no other request is sent. *)
Lemma preserves_sync_channel (fuel : nat) (watch_remnants : list watch)
    (campaign_id warehouse_id market_token : string) :
  (forall stocks rp, (List.length stocks <= 2000)%nat ->
     P (Sent (PutStocks campaign_id market_token stocks) rp) = true) ->
  preserves P (sync_channel price_conversion World http utcnow fuel watch_remnants
                 campaign_id warehouse_id market_token).
Proof.
  intros Hput. unfold sync_channel.
  apply preserves_bind; [apply preserves_get_offer_ids|]. intros offer_ids.
  apply preserves_bind; [intros st H; exact H|]. intros date.
  apply preserves_bind; [apply preserves_lift|]. intros stocks.
  apply preserves_bind.
  - apply preserves_for_each.
    eapply Forall_impl;
      [|apply (divide_from_bounds 2000 ltac:(lia) (List.length stocks) stocks)].
    intros chunk [Hlen _]. apply preserves_update_stocks.
    intros rp. now apply Hput.
  - intros _. apply preserves_bind; [apply preserves_ret|]. intros _.
    apply preserves_ret.
Qed.

Lemma preserves_main (fuel : nat) (e : env) (watch_remnants : list watch) :
  (forall c t stocks rp, (List.length stocks <= 2000)%nat ->
     P (Sent (PutStocks c t stocks) rp) = true) ->
  preserves P (main price_conversion World http utcnow fuel e watch_remnants).
Proof.
  intros Hput st H. unfold main, try_except.
  pose proof (preserves_bind _ _
                (preserves_sync_channel fuel watch_remnants (FBS_ID e)
                   (WAREHOUSE_FBS_ID e) (MARKET_TOKEN e) (Hput _ _))
                (fun _ => preserves_sync_channel fuel watch_remnants (DBS_ID e)
                   (WAREHOUSE_DBS_ID e) (MARKET_TOKEN e) (Hput _ _)) st H) as Hbody.
  destruct (mbind World _ _ st) as [[[]|ex|] st']; simpl in *; try assumption.
  destruct ex; simpl; rewrite forallb_app, Hbody; simpl; now rewrite P_printed.
Qed.

End OrchestratorFacts.

Lemma forallb_no_price_post (tr : list event) :
  forallb no_price_post tr = true -> existsb is_price_post tr = false.
Proof.
  induction tr as [|ev tr IH]; simpl; [reflexivity|].
  unfold no_price_post at 1. intros H. apply andb_prop in H as [Hev Htr].
  apply negb_true_iff in Hev. rewrite Hev. now apply IH.
Qed.

(** What the coroutine of [upload_prices] would do if it were awaited: on
    the sample marketplace it fetches the two pages again and posts the one
    price of the inventory. *)
Example upload_prices_body_sample_run :
  map endpoint
    (trace (snd (upload_prices_body Seller.price_conversion unit Sample.two_pages 5
                   Sample.inventory "fbs" "token" (mk_state tt [])))) =
  ["GET campaigns/fbs/offer-mapping-entries";
   "GET campaigns/fbs/offer-mapping-entries";
   "POST campaigns/fbs/offer-prices/updates"].
Proof. reflexivity. Qed.

(** A whole run of [main] on the sample marketplace: for each channel the
    listing is fetched and the stocks are submitted; nothing follows the
    stock submission of a channel. *)
Example main_sample_run :
  main Seller.price_conversion unit Sample.two_pages Sample.clock 5
       Sample.environment Sample.inventory (mk_state tt []) =
  (Return tt,
   snd (main Seller.price_conversion unit Sample.two_pages Sample.clock 5
          Sample.environment Sample.inventory (mk_state tt []))) /\
  map endpoint
    (trace (snd (main Seller.price_conversion unit Sample.two_pages Sample.clock 5
                   Sample.environment Sample.inventory (mk_state tt [])))) =
  ["GET campaigns/fbs/offer-mapping-entries";
   "GET campaigns/fbs/offer-mapping-entries";
   "PUT campaigns/fbs/offers/stocks";
   "GET campaigns/dbs/offer-mapping-entries";
   "GET campaigns/dbs/offer-mapping-entries";
   "PUT campaigns/dbs/offers/stocks"].
Proof. split; reflexivity. Qed.

(** C3 (what the code does).  [main] calls the coroutine function
    [upload_prices] without awaiting it, so its body never runs: whatever
    the marketplace, the inventory and the environment, a run of [main]
    sends no request to the price endpoint (and the offer ids are not
    fetched a second time).  The stock submissions that it does send hold
    at most 2000 updates each. *)
Theorem main_never_submits_prices
    (price_conversion : cell -> result cell)
    (World : Type) (http : World -> request -> reply * World)
    (utcnow : World -> string)
    (fuel : nat) (e : env) (watch_remnants : list watch) (w : World) :
  existsb is_price_post
    (trace (snd (main price_conversion World http utcnow fuel e watch_remnants
                   (mk_state w [])))) = false /\
  forallb within_limits
    (trace (snd (main price_conversion World http utcnow fuel e watch_remnants
                   (mk_state w [])))) = true.
Proof.
  split.
  - apply forallb_no_price_post.
    apply (preserves_main price_conversion World http utcnow no_price_post);
      reflexivity.
  - apply (preserves_main price_conversion World http utcnow within_limits);
      try reflexivity.
    intros c t stocks rp Hlen. simpl. now apply Nat.leb_le.
Qed.

(* ================================================================== *)
(** ** Further properties of [create_stocks]                           *)
(* ================================================================== *)

Section MoreStockFacts.

Variables warehouse_id date : string.

(** The accumulator of the first loop is only appended to. *)
Lemma match_loop_acc (watch_remnants : list watch) :
  forall acc offer_ids,
    match_loop watch_remnants warehouse_id date acc offer_ids =
    (rmap (app acc) (fst (match_loop watch_remnants warehouse_id date [] offer_ids)),
     snd (match_loop watch_remnants warehouse_id date [] offer_ids)).
Proof.
  induction watch_remnants as [|w rest IH]; intros acc R; simpl.
  - now rewrite app_nil_r.
  - destruct (contains (str (Kod w)) R); [|apply IH].
    destruct (stock_of w) as [n|e]; [|reflexivity].
    destruct (remove (str (Kod w)) R) as [R1|e]; [|reflexivity].
    rewrite IH. rewrite (IH [_]). simpl.
    destruct (fst (match_loop rest warehouse_id date [] R1)); simpl; [|reflexivity].
    now rewrite <- app_assoc.
Qed.

Lemma subseq_refl {A} (l : list A) : subseq l l.
Proof. induction l; [apply subseq_nil | now apply subseq_take]. Qed.

Lemma subseq_trans {A} (l1 l2 l3 : list A) :
  subseq l1 l2 -> subseq l2 l3 -> subseq l1 l3.
Proof.
  intros H12 H23. revert l1 H12.
  induction H23 as [|x l2 l3 _ IH|x l2 l3 _ IH]; intros l1 H12.
  - assumption.
  - apply subseq_skip. now apply IH.
  - inversion H12; subst.
    + apply subseq_skip. now apply IH.
    + apply subseq_take. now apply IH.
Qed.

Lemma remove_subseq (s : string) (lst lst' : list json) :
  remove s lst = Ok lst' -> subseq lst' lst.
Proof.
  revert lst'. induction lst as [|v rest IH]; simpl; intros lst'; [discriminate|].
  destruct (str_eq s v).
  - intros [= <-]. apply subseq_skip, subseq_refl.
  - destruct (remove s rest) as [r|]; simpl; [|discriminate].
    intros [= <-]. apply subseq_take. now apply IH.
Qed.

(** The first loop goes through the inventory in order: the updates it
    appends are those of a subsequence of the records, and the ids it leaves
    are a subsequence of the ids it was given. *)
Lemma match_loop_order (watch_remnants : list watch) :
  forall acc offer_ids stocks rest_ids,
    match_loop watch_remnants warehouse_id date acc offer_ids = (Ok stocks, rest_ids) ->
    exists used new,
      stocks = acc ++ new /\
      subseq used watch_remnants /\
      Forall2 (built_from warehouse_id date) used new /\
      subseq rest_ids offer_ids.
Proof.
  induction watch_remnants as [|w rest IH]; intros acc R ms R' H; simpl in H.
  - injection H as <- <-. exists [], []. rewrite app_nil_r.
    repeat split; [apply subseq_nil | constructor | apply subseq_refl].
  - destruct (contains (str (Kod w)) R) eqn:Hc.
    + destruct (stock_of w) as [n|e] eqn:Hs; [|discriminate].
      destruct (remove (str (Kod w)) R) as [R1|e] eqn:Hr; [|discriminate].
      apply IH in H as (used & new & -> & Hsub & Hall & Hrest).
      exists (w :: used), (matched_stock warehouse_id date w n :: new).
      repeat split.
      * now rewrite <- app_assoc.
      * now apply subseq_take.
      * constructor; [|assumption]. exists n. auto.
      * eapply subseq_trans; [exact Hrest|]. eapply remove_subseq; eassumption.
    + apply IH in H as (used & new & -> & Hsub & Hall & Hrest).
      exists used, new. repeat split; try assumption. now apply subseq_skip.
Qed.

(** A loop that raises has first run, without raising, through the records
    before the one that fails; the list is as those records left it. *)
Lemma match_loop_raise_prefix (watch_remnants : list watch) :
  forall offer_ids e rest_ids,
    match_loop watch_remnants warehouse_id date [] offer_ids = (Raise e, rest_ids) ->
    exists before w after done,
      watch_remnants = before ++ w :: after /\
      match_loop before warehouse_id date [] offer_ids = (Ok done, rest_ids) /\
      In (JStr (str (Kod w))) rest_ids /\
      stock_of w = Raise e.
Proof.
  induction watch_remnants as [|w rest IH]; intros R e R' H; simpl in H;
    [discriminate|].
  destruct (contains (str (Kod w)) R) eqn:Hc.
  - destruct (stock_of w) as [n|e'] eqn:Hs.
    + destruct (remove (str (Kod w)) R) as [R1|e'] eqn:Hr.
      * rewrite match_loop_acc in H.
        destruct (match_loop rest warehouse_id date [] R1) as [[ms|e''] R''] eqn:Hrest;
          simpl in H; [discriminate|].
        injection H as <- <-.
        destruct (IH _ _ _ Hrest) as (before & w' & after & done & -> & Hdone & Hin & Hw').
        exists (w :: before), w', after,
               (matched_stock warehouse_id date w n :: done).
        repeat split; try assumption.
        simpl. rewrite Hc, Hs, Hr, match_loop_acc, Hdone. reflexivity.
      * destruct (remove_present _ _ Hc) as (R1 & Hr' & _). congruence.
    + injection H as <- <-. exists [], w, rest, []. repeat split; try assumption.
      now apply contains_In.
  - destruct (IH _ _ _ H) as (before & w' & after & done & -> & Hdone & Hin & Hw').
    exists (w :: before), w', after, done. repeat split; try assumption.
    simpl. now rewrite Hc.
Qed.

(** A loop over records none of which is a remote id changes nothing. *)
Lemma match_loop_no_match (watch_remnants : list watch) (offer_ids : list json) :
  (forall w, In w watch_remnants -> contains (str (Kod w)) offer_ids = false) ->
  forall acc,
    match_loop watch_remnants warehouse_id date acc offer_ids = (Ok acc, offer_ids).
Proof.
  induction watch_remnants as [|w rest IH]; intros H acc; simpl; [reflexivity|].
  rewrite (H w (or_introl eq_refl)). apply IH. intros w' Hw'. apply H. now right.
Qed.

End MoreStockFacts.

(** X1.  Whatever the list of remote ids (an id listed twice, values that
    are not strings), a call of [create_stocks] that returns has made one
    update per element of the list: the skus of the result are the elements
    of [offer_ids], each as often as it is listed. *)
Theorem create_stocks_covers_any_list
    (watch_remnants : list watch) (offer_ids : list json)
    (warehouse_id date : string) (stocks : list stock) :
  fst (create_stocks watch_remnants offer_ids warehouse_id date) = Ok stocks ->
  Permutation (map sku stocks) offer_ids /\
  List.length stocks = List.length offer_ids.
Proof.
  intros H.
  apply create_stocks_ok in H as (ms & Hloop & ->).
  apply match_loop_ok in Hloop as (new & Hms & Hperm & _).
  simpl in Hms. subst ms.
  assert (Hsku : Permutation (map sku (new ++ map (fill warehouse_id date)
            (snd (create_stocks watch_remnants offer_ids warehouse_id date))))
            offer_ids).
  { rewrite map_app, map_map. simpl. rewrite map_id. now symmetry. }
  split; [exact Hsku|].
  rewrite <- (length_map sku). now apply Permutation_length.
Qed.

Lemma create_stocks_covers_any_list_witness :
  Permutation [JStr "A1"; JStr "A1"] Sample.remote_ids_twice.
Proof.
  apply (create_stocks_covers_any_list Sample.inventory Sample.remote_ids_twice
           "wh" "d" [matched_stock "wh" "d" Sample.watch_A1 100;
                     fill "wh" "d" (JStr "A1")]).
  reflexivity.
Defined.

(** X2.  Every update that [create_stocks] returns carries the warehouse id
    of the call and exactly one item, of type "FIT", stamped with the one
    clock reading of the call. *)
Theorem create_stocks_payload_shape
    (watch_remnants : list watch) (offer_ids : list json)
    (warehouse_id date : string) (stocks : list stock) :
  fst (create_stocks watch_remnants offer_ids warehouse_id date) = Ok stocks ->
  Forall (fun s => warehouseId s = warehouse_id /\
                   exists n, items s = [mk_item n "FIT" date]) stocks.
Proof.
  intros H.
  apply create_stocks_ok in H as (ms & Hloop & ->).
  apply match_loop_ok in Hloop as (new & Hms & _ & Hall).
  simpl in Hms. subst ms. apply Forall_app. split.
  - eapply Forall_impl; [|exact Hall]. simpl.
    intros s (w & n & _ & _ & ->). split; [reflexivity|]. now exists n.
  - apply Forall_forall. intros s Hs. apply in_map_iff in Hs as (v & <- & _).
    split; [reflexivity|]. now exists 0.
Qed.

Lemma create_stocks_payload_shape_witness :
  Forall (fun s => warehouseId s = "wh" /\ exists n, items s = [mk_item n "FIT" "d"])
    [matched_stock "wh" "d" Sample.watch_A1 100; fill "wh" "d" (JStr "B2")].
Proof.
  apply (create_stocks_payload_shape Sample.inventory Sample.remote_ids "wh" "d").
  reflexivity.
Defined.

(** X3.  The result of [create_stocks] is ordered: first the updates built
    from inventory records, in the order of the inventory, then the
    zero-stock updates of the ids left in the list, in the order of the
    list; the ids left are ids of the original list, in their order. *)
Theorem create_stocks_matched_then_filled
    (watch_remnants : list watch) (offer_ids : list json)
    (warehouse_id date : string) (stocks : list stock) :
  fst (create_stocks watch_remnants offer_ids warehouse_id date) = Ok stocks ->
  exists used matched,
    stocks = matched ++
      map (fill warehouse_id date)
          (snd (create_stocks watch_remnants offer_ids warehouse_id date)) /\
    subseq used watch_remnants /\
    Forall2 (built_from warehouse_id date) used matched /\
    subseq (snd (create_stocks watch_remnants offer_ids warehouse_id date)) offer_ids.
Proof.
  intros H.
  apply create_stocks_ok in H as (ms & Hloop & ->).
  apply match_loop_order in Hloop as (used & new & Hms & Hsub & Hall & Hrest).
  simpl in Hms. subst ms. exists used, new. auto.
Qed.

Lemma create_stocks_matched_then_filled_witness :
  exists used matched,
    [matched_stock "wh" "d" Sample.watch_A1 100; fill "wh" "d" (JStr "B2")] =
      matched ++ map (fill "wh" "d") [JStr "B2"] /\
    subseq used Sample.inventory /\
    Forall2 (built_from "wh" "d") used matched /\
    subseq [JStr "B2"] Sample.remote_ids.
Proof.
  apply (create_stocks_matched_then_filled Sample.inventory Sample.remote_ids "wh" "d").
  reflexivity.
Defined.

(** X4.  When no inventory record has a code of the list (in particular for
    an empty inventory or an empty list), [create_stocks] returns the
    zero-stock update of every id, in the order of the list, and leaves the
    list as it was; the quantities of the records are not read, so a record
    with a malformed quantity does not make the call raise. *)
Theorem create_stocks_without_match
    (watch_remnants : list watch) (offer_ids : list json)
    (warehouse_id date : string) :
  (forall w, In w watch_remnants -> contains (str (Kod w)) offer_ids = false) ->
  create_stocks watch_remnants offer_ids warehouse_id date =
  (Ok (map (fill warehouse_id date) offer_ids), offer_ids).
Proof.
  intros H. unfold create_stocks.
  rewrite (match_loop_no_match _ _ _ _ H). now rewrite fill_loop_eq.
Qed.

Lemma create_stocks_without_match_witness :
  create_stocks [Sample.watch_bad] [JStr "B2"; JStr "C3"] "wh" "d" =
  (Ok [fill "wh" "d" (JStr "B2"); fill "wh" "d" (JStr "C3")], [JStr "B2"; JStr "C3"]).
Proof.
  apply (create_stocks_without_match [Sample.watch_bad] [JStr "B2"; JStr "C3"] "wh" "d").
  intros w [<- | []]. reflexivity.
Defined.

(** X5.  There is no rollback: when [create_stocks] raises, it raises the
    exception of the quantity of a record whose code is still in the list,
    and the list is left as the records before that one have left it; the
    ids that they matched have been removed. *)
Theorem create_stocks_raise_keeps_removals
    (watch_remnants : list watch) (offer_ids : list json)
    (warehouse_id date : string) (e : exn) :
  fst (create_stocks watch_remnants offer_ids warehouse_id date) = Raise e ->
  exists before w after stocks_before,
    watch_remnants = before ++ w :: after /\
    stock_of w = Raise e /\
    In (JStr (str (Kod w)))
       (snd (create_stocks watch_remnants offer_ids warehouse_id date)) /\
    fst (create_stocks before offer_ids warehouse_id date) = Ok stocks_before /\
    snd (create_stocks before offer_ids warehouse_id date) =
      snd (create_stocks watch_remnants offer_ids warehouse_id date).
Proof.
  unfold create_stocks.
  destruct (match_loop watch_remnants warehouse_id date [] offer_ids)
    as [[ms|e'] R'] eqn:H; simpl; [discriminate|].
  intros [= ->].
  destruct (match_loop_raise_prefix _ _ _ _ _ _ H)
    as (before & w & after & done & Hsplit & Hdone & Hin & Hw).
  exists before, w, after, (fill_loop warehouse_id date done R').
  rewrite Hdone. simpl. auto.
Qed.

Lemma create_stocks_raise_keeps_removals_witness :
  exists before w after stocks_before,
    [Sample.watch_A1; mk_watch (CStr "B2") (CStr "many") CNone] = before ++ w :: after /\
    stock_of w = Raise ValueError /\
    In (JStr (str (Kod w))) [JStr "B2"] /\
    fst (create_stocks before Sample.remote_ids "wh" "d") = Ok stocks_before /\
    snd (create_stocks before Sample.remote_ids "wh" "d") = [JStr "B2"].
Proof.
  apply (create_stocks_raise_keeps_removals
           [Sample.watch_A1; mk_watch (CStr "B2") (CStr "many") CNone]
           Sample.remote_ids "wh" "d" ValueError).
  reflexivity.
Defined.

(** X6.  An element of the list that is not a string (the [None] of an entry
    without [shopSku], a number) is never matched by a record: it stays in
    the list and gets a zero-stock update with itself as sku. *)
Theorem create_stocks_fills_non_string_ids
    (watch_remnants : list watch) (offer_ids : list json)
    (warehouse_id date : string) (stocks : list stock) (v : json) :
  In v offer_ids -> (forall s, v <> JStr s) ->
  fst (create_stocks watch_remnants offer_ids warehouse_id date) = Ok stocks ->
  In v (snd (create_stocks watch_remnants offer_ids warehouse_id date)) /\
  In (fill warehouse_id date v) stocks.
Proof.
  intros Hin Hv H.
  apply create_stocks_ok in H as (ms & Hloop & ->).
  apply match_loop_ok in Hloop as (new & Hms & Hperm & Hall).
  assert (Hrest : In v (snd (create_stocks watch_remnants offer_ids warehouse_id date))).
  { apply (Permutation_in _ Hperm) in Hin. apply in_app_or in Hin as [Hnew|]; [|assumption].
    apply in_map_iff in Hnew as (s & Hs & Hsin).
    rewrite Forall_forall in Hall. destruct (Hall s Hsin) as (w & n & _ & _ & ->).
    simpl in Hs. symmetry in Hs. now apply Hv in Hs. }
  split; [assumption|]. apply in_or_app. right. now apply in_map.
Qed.

Lemma create_stocks_fills_non_string_ids_witness :
  In JNull [JNull] /\ In (fill "wh" "d" JNull)
    [matched_stock "wh" "d" Sample.watch_A1 100; fill "wh" "d" JNull].
Proof.
  apply (create_stocks_fills_non_string_ids Sample.inventory [JStr "A1"; JNull] "wh" "d").
  - right. now left.
  - intros s. discriminate.
  - reflexivity.
Defined.

(** The filter of lines 341-343 on the updates that [create_stocks] built. *)
Lemma filter_nonzero_created
    (watch_remnants : list watch) (offer_ids : list json)
    (warehouse_id date : string) (stocks : list stock) :
  fst (create_stocks watch_remnants offer_ids warehouse_id date) = Ok stocks ->
  filter_nonzero stocks = Ok (filter has_stock stocks).
Proof.
  intros H.
  assert (Hall : Forall (fun s => exists i rest, items s = i :: rest) stocks).
  { apply create_stocks_ok in H as (ms & Hloop & ->).
    apply match_loop_ok in Hloop as (new & Hms & _ & Hall).
    simpl in Hms. subst ms. apply Forall_app. split.
    - eapply Forall_impl; [|exact Hall]. simpl.
      intros s (w & n & _ & _ & ->). simpl. eauto.
    - apply Forall_forall. intros s Hs. apply in_map_iff in Hs as (v & <- & _).
      simpl. eauto. }
  clear H. induction Hall as [|s rest (i & tl & Hi) _ IH]; simpl; [reflexivity|].
  unfold nonzero_count, has_stock. rewrite Hi. simpl. rewrite IH. simpl.
  reflexivity.
Qed.

(** X7.  The test of line 342 is safe on what [create_stocks] returns: every
    update has an item, so [filter_nonzero] does not raise and keeps exactly
    the updates whose count is not 0, in their order; the zero-stock update
    of an id without record is never among them. *)
Theorem create_stocks_then_filter_nonzero
    (watch_remnants : list watch) (offer_ids : list json)
    (warehouse_id date : string) (stocks : list stock) :
  fst (create_stocks watch_remnants offer_ids warehouse_id date) = Ok stocks ->
  filter_nonzero stocks = Ok (filter has_stock stocks) /\
  forall v, ~ In (fill warehouse_id date v) (filter has_stock stocks).
Proof.
  intros H. split.
  - now apply (filter_nonzero_created watch_remnants offer_ids warehouse_id date).
  - intros v Hin. apply filter_In in Hin as [_ Hv]. discriminate Hv.
Qed.

Lemma create_stocks_then_filter_nonzero_witness :
  filter_nonzero [matched_stock "wh" "d" Sample.watch_A1 100; fill "wh" "d" (JStr "B2")]
  = Ok [matched_stock "wh" "d" Sample.watch_A1 100].
Proof.
  apply (create_stocks_then_filter_nonzero Sample.inventory Sample.remote_ids "wh" "d").
  reflexivity.
Defined.

(* ================================================================== *)
(** ** Numeric quantity cells                                          *)
(* ================================================================== *)

Section NumericCells.









End NumericCells.


(* ================================================================== *)
(** ** Further properties of [create_prices]                           *)
(* ================================================================== *)

Section MorePriceFacts.

Variable price_conversion : cell -> result cell.

Lemma price_loop_acc (offer_ids : list json) (watch_remnants : list watch) :
  forall acc,
    price_loop price_conversion watch_remnants offer_ids acc =
    rmap (app acc) (price_loop price_conversion watch_remnants offer_ids []).
Proof.
  induction watch_remnants as [|w rest IH]; intros acc; simpl.
  - now rewrite app_nil_r.
  - destruct (contains (str (Kod w)) offer_ids); [|apply IH].
    destruct (price_conversion (Tsena w)) as [converted|e]; simpl; [|reflexivity].
    destruct (int converted) as [v|e]; simpl; [|reflexivity].
    rewrite IH. rewrite (IH [_]).
    destruct (price_loop price_conversion rest offer_ids []); simpl; [|reflexivity].
    now rewrite <- app_assoc.
Qed.

(** The loop looks at the list of ids through [in] only. *)
Lemma price_loop_same_members (offer_ids offer_ids' : list json)
    (watch_remnants : list watch) :
  (forall s, In (JStr s) offer_ids <-> In (JStr s) offer_ids') ->
  forall acc,
    price_loop price_conversion watch_remnants offer_ids acc =
    price_loop price_conversion watch_remnants offer_ids' acc.
Proof.
  intros Hsame.
  assert (Hc : forall s, contains s offer_ids = contains s offer_ids').
  { intros s. destruct (contains s offer_ids) eqn:E1, (contains s offer_ids') eqn:E2;
      try reflexivity.
    - apply contains_In, Hsame, contains_In in E1. congruence.
    - apply contains_In, Hsame, contains_In in E2. congruence. }
  induction watch_remnants as [|w rest IH]; intros acc; simpl; [reflexivity|].
  rewrite <- Hc. destruct (contains (str (Kod w)) offer_ids); [|apply IH].
  destruct (price_conversion (Tsena w)) as [converted|e]; simpl; [|reflexivity].
  destruct (int converted) as [v|e]; simpl; [|reflexivity].
  apply IH.
Qed.

(** The records whose code is not in the list are passed over. *)
Lemma price_loop_listed_only (offer_ids : list json) (watch_remnants : list watch) :
  forall acc,
    price_loop price_conversion watch_remnants offer_ids acc =
    price_loop price_conversion
      (filter (fun w => contains (str (Kod w)) offer_ids) watch_remnants)
      offer_ids acc.
Proof.
  induction watch_remnants as [|w rest IH]; intros acc; simpl; [reflexivity|].
  destruct (contains (str (Kod w)) offer_ids) eqn:Hc; [|apply IH].
  simpl. rewrite Hc.
  destruct (price_conversion (Tsena w)) as [converted|e]; simpl; [|reflexivity].
  destruct (int converted) as [v|e]; simpl; [|reflexivity].
  apply IH.
Qed.

Lemma price_loop_raise_prefix (offer_ids : list json) (watch_remnants : list watch) :
  forall e,
    price_loop price_conversion watch_remnants offer_ids [] = Raise e ->
    exists before w after prices_before,
      watch_remnants = before ++ w :: after /\
      contains (str (Kod w)) offer_ids = true /\
      bind (price_conversion (Tsena w)) int = Raise e /\
      price_loop price_conversion before offer_ids [] = Ok prices_before.
Proof.
  induction watch_remnants as [|w rest IH]; intros e H; simpl in H; [discriminate|].
  destruct (contains (str (Kod w)) offer_ids) eqn:Hc.
  - destruct (bind (price_conversion (Tsena w)) int) as [v|e'] eqn:Hv.
    + assert (Hstep : price_loop price_conversion rest offer_ids
                        [mk_price (str (Kod w)) (mk_price_value v "RUR")] = Raise e).
      { destruct (price_conversion (Tsena w)) as [converted|]; simpl in *;
          [|discriminate]. rewrite Hv in H. exact H. }
      rewrite price_loop_acc in Hstep.
      destruct (price_loop price_conversion rest offer_ids []) as [ps|e''] eqn:Hrest;
        simpl in Hstep; [discriminate|]. injection Hstep as ->.
      destruct (IH _ eq_refl) as (before & w' & after & pb & -> & Hc' & Hw' & Hb).
      exists (w :: before), w', after,
             (mk_price (str (Kod w)) (mk_price_value v "RUR") :: pb).
      repeat split; try assumption.
      simpl. rewrite Hc.
      destruct (price_conversion (Tsena w)) as [converted|]; simpl in *;
        [|discriminate]. rewrite Hv. simpl.
      rewrite price_loop_acc, Hb. reflexivity.
    + exists [], w, rest, []. repeat split; try assumption.
      destruct (price_conversion (Tsena w)) as [converted|]; simpl in *.
      * rewrite Hv in H. simpl in H. congruence.
      * congruence.
  - destruct (IH _ H) as (before & w' & after & pb & -> & Hc' & Hw' & Hb).
    exists (w :: before), w', after, pb. repeat split; try assumption.
    simpl. now rewrite Hc.
Qed.

End MorePriceFacts.

(** X9.  [create_prices] returns its entries in the order of the inventory,
    one for each record whose code is in the list (a code listed in the
    inventory twice gets two entries, an id listed twice in [offer_ids]
    does not): the id is the text of the code, the currency is "RUR" and the
    value is the integer read from the converted price. *)
Theorem create_prices_in_inventory_order
    (price_conversion : cell -> result cell)
    (watch_remnants : list watch) (offer_ids : list json) (prices : list price) :
  create_prices price_conversion watch_remnants offer_ids = Ok prices ->
  Forall2 (priced_from price_conversion)
    (filter (fun w => contains (str (Kod w)) offer_ids) watch_remnants) prices.
Proof.
  intros H. apply price_loop_ok in H as (new & -> & Hall). exact Hall.
Qed.

Lemma create_prices_in_inventory_order_witness :
  Forall2 (priced_from Seller.price_conversion)
    [Sample.watch_A1; Sample.watch_A1_again]
    [mk_price "A1" (mk_price_value 1990 "RUR");
     mk_price "A1" (mk_price_value 2490 "RUR")].
Proof.
  apply (create_prices_in_inventory_order Seller.price_conversion
           Sample.inventory_twice Sample.remote_ids_twice).
  reflexivity.
Defined.

(** X10.  [create_prices] reads the list of ids through membership only and
    does not change it: two lists with the same string members, in whatever
    order and however often listed, give the same outcome. *)
Theorem create_prices_membership_only
    (price_conversion : cell -> result cell)
    (watch_remnants : list watch) (offer_ids offer_ids' : list json) :
  (forall s, In (JStr s) offer_ids <-> In (JStr s) offer_ids') ->
  create_prices price_conversion watch_remnants offer_ids =
  create_prices price_conversion watch_remnants offer_ids'.
Proof.
  intros H. now apply price_loop_same_members.
Qed.

Lemma create_prices_membership_only_witness :
  create_prices Seller.price_conversion Sample.inventory_twice [JStr "A1"; JStr "B2"] =
  create_prices Seller.price_conversion Sample.inventory_twice
    [JStr "B2"; JInt 7; JStr "A1"; JStr "A1"].
Proof.
  apply (create_prices_membership_only Seller.price_conversion Sample.inventory_twice).
  intros s. simpl. intuition congruence.
Defined.

(** X11.  The records whose code is not in the list are passed over without
    their price being converted: the outcome is that of the call on the
    listed records alone, so an unlisted record with a malformed price does
    not make the call raise. *)
Theorem create_prices_skips_unlisted_records
    (price_conversion : cell -> result cell)
    (watch_remnants : list watch) (offer_ids : list json) :
  create_prices price_conversion watch_remnants offer_ids =
    create_prices price_conversion
      (filter (fun w => contains (str (Kod w)) offer_ids) watch_remnants) offer_ids /\
  forall before w after,
    watch_remnants = before ++ w :: after ->
    contains (str (Kod w)) offer_ids = false ->
    create_prices price_conversion watch_remnants offer_ids =
    create_prices price_conversion (before ++ after) offer_ids.
Proof.
  split.
  - apply price_loop_listed_only.
  - intros before w after -> Hw. unfold create_prices.
    rewrite (price_loop_listed_only _ _ (before ++ w :: after)),
            (price_loop_listed_only _ _ (before ++ after)).
    rewrite !filter_app. simpl. now rewrite Hw.
Qed.

Lemma create_prices_skips_unlisted_records_witness :
  create_prices Seller.price_conversion
    [mk_watch (CStr "ZZ") (CStr "3") (CStr "n/a"); Sample.watch_A1] Sample.remote_ids =
  create_prices Seller.price_conversion ([] ++ [Sample.watch_A1]) Sample.remote_ids.
Proof.
  apply (proj2 (create_prices_skips_unlisted_records Seller.price_conversion
                  [mk_watch (CStr "ZZ") (CStr "3") (CStr "n/a"); Sample.watch_A1]
                  Sample.remote_ids)
           [] (mk_watch (CStr "ZZ") (CStr "3") (CStr "n/a")) [Sample.watch_A1]);
    reflexivity.
Defined.

(** X12.  [create_prices] raises only on a listed record: the exception is
    the one of the conversion of the price of a record whose code is in the
    list, and the records before it were all converted. *)
Theorem create_prices_raises_on_listed_record
    (price_conversion : cell -> result cell)
    (watch_remnants : list watch) (offer_ids : list json) (e : exn) :
  create_prices price_conversion watch_remnants offer_ids = Raise e ->
  exists before w after prices_before,
    watch_remnants = before ++ w :: after /\
    In (JStr (str (Kod w))) offer_ids /\
    bind (price_conversion (Tsena w)) int = Raise e /\
    create_prices price_conversion before offer_ids = Ok prices_before.
Proof.
  intros H. apply price_loop_raise_prefix in H
    as (before & w & after & pb & Hsplit & Hc & Hw & Hb).
  exists before, w, after, pb. repeat split; try assumption.
  now apply contains_In.
Qed.

Lemma create_prices_raises_on_listed_record_witness :
  exists before w after prices_before,
    [Sample.watch_A1; mk_watch (CStr "B2") (CStr "3") (CStr "n/a")] =
      before ++ w :: after /\
    In (JStr (str (Kod w))) Sample.remote_ids /\
    bind (Seller.price_conversion (Tsena w)) int = Raise ValueError /\
    create_prices Seller.price_conversion before Sample.remote_ids = Ok prices_before.
Proof.
  apply (create_prices_raises_on_listed_record Seller.price_conversion
           [Sample.watch_A1; mk_watch (CStr "B2") (CStr "3") (CStr "n/a")]
           Sample.remote_ids ValueError).
  reflexivity.
Defined.

(* ================================================================== *)
(** ** Further properties of the requests                              *)
(* ================================================================== *)

Section ExchangeFacts.

Variable World : Type.
Variable http : World -> request -> reply * World.

(** What a call of [update_stocks] does, by the reply it gets. *)
Lemma update_stocks_run (stocks : list stock) (campaign_id access_token : string)
    (st : state World) :
  let rq := PutStocks campaign_id access_token stocks in
  let rp := fst (http (world st) rq) in
  snd (update_stocks World http stocks campaign_id access_token st) =
    mk_state (snd (http (world st) rq)) (trace st ++ [Sent rq rp]) /\
  match reply_raises rp with
  | Some e => fst (update_stocks World http stocks campaign_id access_token st) = Raised e
  | None => exists j, fst (update_stocks World http stocks campaign_id access_token st)
                      = Return j
  end.
Proof.
  unfold update_stocks, mbind, send. simpl.
  destruct (http (world st) (PutStocks campaign_id access_token stocks)) as [rp w].
  simpl. destruct rp as [e|status_code body]; simpl; [auto|].
  unfold raise_for_status.
  destruct ((400 <=? status_code) && (status_code <? 600)); simpl; [auto|].
  destruct body as [j|]; simpl; eauto.
Qed.

(** The loop over the chunks submits them in order and stops at the first
    reply that makes the submission raise. *)
Lemma for_each_update_stocks (campaign_id access_token : string)
    (chunks : list (list stock)) :
  forall st,
    match fst (for_each World chunks
                 (fun some_stock =>
                    update_stocks World http some_stock campaign_id access_token) st)
    with
    | Return _ =>
        exists replies,
          List.length replies = List.length chunks /\
          Forall (fun rp => reply_raises rp = None) replies /\
          trace (snd (for_each World chunks
                        (fun some_stock =>
                           update_stocks World http some_stock campaign_id access_token)
                        st)) =
            trace st ++ map (stock_submission campaign_id access_token)
                            (combine chunks replies)
    | Raised e =>
        exists replies refused,
          (List.length replies < List.length chunks)%nat /\
          Forall (fun rp => reply_raises rp = None) replies /\
          reply_raises refused = Some e /\
          trace (snd (for_each World chunks
                        (fun some_stock =>
                           update_stocks World http some_stock campaign_id access_token)
                        st)) =
            trace st ++ map (stock_submission campaign_id access_token)
                            (combine chunks (replies ++ [refused]))
    | Diverged => False
    end.
Proof.
  induction chunks as [|chunk rest IH]; intros st.
  - simpl. exists []. simpl. rewrite app_nil_r. auto.
  - cbn [for_each]. unfold mbind.
    destruct (update_stocks_run chunk campaign_id access_token st) as [Hst Hout].
    destruct (update_stocks World http chunk campaign_id access_token st)
      as [out st1] eqn:Hrun. simpl in Hst, Hout. subst st1.
    set (rq := PutStocks campaign_id access_token chunk) in *.
    set (rp := fst (http (world st) rq)) in *.
    destruct (reply_raises rp) as [e|] eqn:Hrp.
    + subst out. simpl. exists [], rp. simpl. rewrite combine_nil.
      repeat split; auto; try lia.
    + destruct Hout as (j & ->).
      specialize (IH (mk_state (snd (http (world st) rq)) (trace st ++ [Sent rq rp]))).
      destruct (for_each World rest _ _) as [[[]|e|] st2]; simpl in *.
      * destruct IH as (replies & Hlen & Hall & ->).
        exists (rp :: replies). simpl. rewrite Hlen, <- app_assoc.
        repeat split; auto.
      * destruct IH as (replies & refused & Hlen & Hall & Href & ->).
        exists (rp :: replies), refused. simpl. rewrite <- app_assoc.
        repeat split; auto; try lia.
      * exact IH.
Qed.

End ExchangeFacts.

(** X13.  The chunks of a stock list are submitted one by one, in order, each
    in one PUT, without retry: the loop goes on while the replies are
    successes with a JSON body, and the first other reply ends it with the
    exception of that reply, the chunks after it not being submitted. *)
Theorem stock_batches_stop_at_first_failure
    (World : Type) (http : World -> request -> reply * World)
    (campaign_id access_token : string) (chunks : list (list stock))
    (st : state World) (e : exn) :
  fst (for_each World chunks
         (fun some_stock => update_stocks World http some_stock campaign_id access_token)
         st) = Raised e ->
  exists replies refused,
    (List.length replies < List.length chunks)%nat /\
    Forall (fun rp => reply_raises rp = None) replies /\
    reply_raises refused = Some e /\
    trace (snd (for_each World chunks
                  (fun some_stock =>
                     update_stocks World http some_stock campaign_id access_token) st)) =
      trace st ++ map (stock_submission campaign_id access_token)
                      (combine chunks (replies ++ [refused])).
Proof.
  intros H.
  pose proof (for_each_update_stocks World http campaign_id access_token chunks st) as Hrun.
  rewrite H in Hrun. exact Hrun.
Qed.

Lemma stock_batches_stop_at_first_failure_witness :
  exists replies refused,
    (List.length replies < 3)%nat /\
    Forall (fun rp => reply_raises rp = None) replies /\
    reply_raises refused = Some HTTPError /\
    [Sent (PutStocks "fbs" "token" [fill "wh" "d" (JStr "A1")]) Sample.accepted;
     Sent (PutStocks "fbs" "token" [fill "wh" "d" (JStr "B2")]) (Response 500 None)] =
      [] ++ map (stock_submission "fbs" "token")
              (combine [[fill "wh" "d" (JStr "A1")]; [fill "wh" "d" (JStr "B2")];
                        [fill "wh" "d" (JStr "C3")]]
                       (replies ++ [refused])).
Proof.
  apply (stock_batches_stop_at_first_failure nat Sample.refuses_second_batch
           "fbs" "token"
           [[fill "wh" "d" (JStr "A1")]; [fill "wh" "d" (JStr "B2")];
            [fill "wh" "d" (JStr "C3")]]
           (mk_state 0%nat []) HTTPError).
  reflexivity.
Defined.

(** X14.  When every reply is a success with a JSON body, every chunk is
    submitted, once and in order, and the loop returns. *)
Theorem stock_batches_all_submitted
    (World : Type) (http : World -> request -> reply * World)
    (campaign_id access_token : string) (chunks : list (list stock))
    (st : state World) :
  fst (for_each World chunks
         (fun some_stock => update_stocks World http some_stock campaign_id access_token)
         st) = Return tt ->
  exists replies,
    List.length replies = List.length chunks /\
    Forall (fun rp => reply_raises rp = None) replies /\
    trace (snd (for_each World chunks
                  (fun some_stock =>
                     update_stocks World http some_stock campaign_id access_token) st)) =
      trace st ++ map (stock_submission campaign_id access_token)
                      (combine chunks replies).
Proof.
  intros H.
  pose proof (for_each_update_stocks World http campaign_id access_token chunks st) as Hrun.
  rewrite H in Hrun. exact Hrun.
Qed.

Lemma stock_batches_all_submitted_witness :
  exists replies,
    List.length replies = 2%nat /\
    Forall (fun rp => reply_raises rp = None) replies /\
    [Sent (PutStocks "fbs" "token" [fill "wh" "d" (JStr "A1")]) Sample.accepted;
     Sent (PutStocks "fbs" "token" [fill "wh" "d" (JStr "B2")]) Sample.accepted] =
      [] ++ map (stock_submission "fbs" "token")
              (combine [[fill "wh" "d" (JStr "A1")]; [fill "wh" "d" (JStr "B2")]] replies).
Proof.
  apply (stock_batches_all_submitted unit Sample.two_pages "fbs" "token"
           [[fill "wh" "d" (JStr "A1")]; [fill "wh" "d" (JStr "B2")]]
           (mk_state tt [])).
  reflexivity.
Defined.

(* ================================================================== *)
(** ** Further properties of the pagination fetch                      *)
(* ================================================================== *)

Section TraceFacts.

Variable price_conversion : cell -> result cell.
Variable World : Type.
Variable http : World -> request -> reply * World.
Variable utcnow : World -> string.

Variable P : event -> Prop.

Lemma emits_only_ret {A} (a : A) : emits_only P (ret World a).
Proof. intros st. exists []. simpl. now rewrite app_nil_r. Qed.

Lemma emits_only_lift {A} (r : result A) : emits_only P (lift World r).
Proof. intros st. exists []. destruct r; simpl; now rewrite app_nil_r. Qed.

Lemma emits_only_now : emits_only P (now World utcnow).
Proof. intros st. exists []. simpl. now rewrite app_nil_r. Qed.

Lemma emits_only_bind {A B} (m : M World A) (k : A -> M World B) :
  emits_only P m -> (forall a, emits_only P (k a)) -> emits_only P (mbind World m k).
Proof.
  intros Hm Hk st. destruct (Hm st) as (new & Htr & Hnew). unfold mbind.
  destruct (m st) as [[a|e|] st']; simpl in *; [|now exists new..].
  destruct (Hk a st') as (new' & Htr' & Hnew').
  exists (new ++ new'). rewrite Htr', Htr, app_assoc. split; [reflexivity|].
  now apply Forall_app.
Qed.

Lemma emits_only_exchange {A} (rq : request) (k : reply -> M World A) :
  (forall rp, P (Sent rq rp)) -> (forall rp, emits_only P (k rp)) ->
  emits_only P (mbind World (send World http rq) k).
Proof.
  intros Hrq Hk. apply emits_only_bind; [|exact Hk].
  intros st. unfold send. destruct (http (world st) rq) as [rp w]. simpl.
  exists [Sent rq rp]. split; [reflexivity|]. constructor; [apply Hrq | constructor].
Qed.

Variables campaign_id access_token : string.
Hypothesis P_listing :
  forall page rp, P (Sent (GetOfferMappingEntries campaign_id access_token page) rp).

Lemma emits_only_get_product_list (page : json) :
  emits_only P (get_product_list World http page campaign_id access_token).
Proof.
  apply emits_only_exchange; [intros rp; apply P_listing|].
  intros [e|status_code body]; [intros st; exists []; simpl; now rewrite app_nil_r|].
  apply emits_only_bind; [apply emits_only_lift|]. intros _.
  apply emits_only_bind; [apply emits_only_lift|]. intros response_object.
  apply emits_only_lift.
Qed.

Lemma emits_only_page_loop (fuel : nat) :
  forall page product_list,
    emits_only P (page_loop World http fuel campaign_id access_token page product_list).
Proof.
  induction fuel as [|fuel IH]; intros page product_list.
  - intros st. exists []. simpl. now rewrite app_nil_r.
  - cbn [page_loop].
    apply emits_only_bind; [apply emits_only_get_product_list|]. intros some_prod.
    apply emits_only_bind; [apply emits_only_lift|]. intros entries.
    apply emits_only_bind; [apply emits_only_lift|]. intros product_list'.
    apply emits_only_bind; [apply emits_only_lift|]. intros paging.
    apply emits_only_bind; [apply emits_only_lift|]. intros page'.
    destruct (negb (truthy page')); [apply emits_only_ret | apply IH].
Qed.

Lemma emits_only_get_offer_ids (fuel : nat) :
  emits_only P (get_offer_ids World http fuel campaign_id access_token).
Proof.
  apply emits_only_bind; [apply emits_only_page_loop|].
  intros product_list. apply emits_only_lift.
Qed.

Hypothesis P_stocks :
  forall skus rp, P (Sent (PutStocks campaign_id access_token skus) rp).

Lemma emits_only_update_stocks (stocks : list stock) :
  emits_only P (update_stocks World http stocks campaign_id access_token).
Proof.
  apply emits_only_exchange; [intros rp; apply P_stocks|].
  intros [e|status_code body]; [intros st; exists []; simpl; now rewrite app_nil_r|].
  apply emits_only_bind; [apply emits_only_lift|]. intros _. apply emits_only_lift.
Qed.

Lemma emits_only_for_each (chunks : list (list stock)) :
  emits_only P
    (for_each World chunks
       (fun some_stock => update_stocks World http some_stock campaign_id access_token)).
Proof.
  induction chunks as [|c rest IH]; cbn [for_each]; [apply emits_only_ret|].
  apply emits_only_bind; [apply emits_only_update_stocks | intros _; exact IH].
Qed.

Lemma emits_only_sync_channel (fuel : nat) (watch_remnants : list watch)
    (warehouse_id : string) :
  emits_only P (sync_channel price_conversion World http utcnow fuel watch_remnants
                  campaign_id warehouse_id access_token).
Proof.
  unfold sync_channel.
  apply emits_only_bind; [apply emits_only_get_offer_ids|]. intros offer_ids.
  apply emits_only_bind; [apply emits_only_now|]. intros date.
  apply emits_only_bind; [apply emits_only_lift|]. intros stocks.
  apply emits_only_bind; [apply emits_only_for_each|]. intros _.
  apply emits_only_bind; [apply emits_only_ret|]. intros _.
  apply emits_only_ret.
Qed.

End TraceFacts.

Section MoreFetchFacts.

Variable World : Type.
Variable http : World -> request -> reply * World.
Variables campaign_id market_token : string.

(** A call of [get_product_list] is one exchange, whatever its outcome. *)
Lemma get_product_list_one_exchange (page : json) (st : state World) :
  trace (snd (get_product_list World http page campaign_id market_token st)) =
  trace st ++ [Sent (GetOfferMappingEntries campaign_id market_token page)
                 (fst (http (world st)
                         (GetOfferMappingEntries campaign_id market_token page)))].
Proof.
  unfold get_product_list, mbind, send.
  destruct (http (world st) (GetOfferMappingEntries campaign_id market_token page))
    as [rp w]. simpl.
  destruct rp as [e|status_code body]; simpl; [reflexivity|].
  destruct (raise_for_status status_code); simpl; [|reflexivity].
  destruct (json_ body) as [j|]; simpl; [|reflexivity].
  destruct (get j "result"); reflexivity.
Qed.

(** The loop starts with a request for the cursor it is given. *)
Lemma page_loop_first_request (fuel : nat) (page : json) (product_list : list json)
    (st : state World) :
  exists rp rest,
    trace (snd (page_loop World http (S fuel) campaign_id market_token page
                  product_list st)) =
    trace st ++ Sent (GetOfferMappingEntries campaign_id market_token page) rp :: rest.
Proof.
  pose proof (get_product_list_one_exchange page st) as Hone.
  cbn [page_loop]. unfold mbind at 1.
  destruct (get_product_list World http page campaign_id market_token st)
    as [[some_prod|e|] st1]; simpl in Hone; [|eauto..].
  match goal with
  | |- context [snd (?k st1)] =>
      assert (Hk : exists rest, trace (snd (k st1)) = trace st1 ++ rest)
  end.
  { match goal with
    | |- context [snd (?k st1)] =>
        assert (Hem : emits_only (fun _ => True) k)
    end.
    { apply emits_only_bind; [apply emits_only_lift|]. intros entries.
      apply emits_only_bind; [apply emits_only_lift|]. intros product_list'.
      apply emits_only_bind; [apply emits_only_lift|]. intros paging.
      apply emits_only_bind; [apply emits_only_lift|]. intros page'.
      destruct (negb (truthy page')); [apply emits_only_ret|].
      apply emits_only_page_loop. intros; exact I. }
    destruct (Hem st1) as (rest & Hrest & _). eauto. }
  destruct Hk as (rest & ->). rewrite Hone, <- app_assoc. simpl. eauto.
Qed.

(** On a run of well-formed pages the loop sends one request per page. *)
Lemma page_loop_serves_count (w : World) (page : json) (pages : list (list json))
    (w' : World) :
  serves_pages http campaign_id market_token w page pages w' ->
  forall fuel product_list tr,
    (List.length pages <= fuel)%nat ->
    exists new,
      trace (snd (page_loop World http fuel campaign_id market_token page product_list
                    (mk_state w tr))) = tr ++ new /\
      List.length new = List.length pages.
Proof.
  induction 1 as [w page sc body entries next w' Hhttp Hsc Hread Hlast
                 |w page sc body entries next w' pages w'' Hhttp Hsc Hread Hmore _ IH];
    intros fuel product_list tr Hfuel;
    (destruct fuel as [|fuel]; [simpl in Hfuel; lia|]);
    destruct Hread as (some_prod & paging & Hres & Hent & Hpag & Hnext);
    cbn [page_loop]; unfold mbind at 1, get_product_list, mbind, send; simpl;
    rewrite Hhttp; simpl; rewrite Hsc; simpl; rewrite Hres; simpl;
    rewrite Hent; simpl; rewrite Hpag; simpl; rewrite Hnext; simpl.
  - rewrite Hlast. simpl. eexists. split; reflexivity.
  - rewrite Hmore. simpl.
    destruct (IH fuel (product_list ++ entries)
                (tr ++ [Sent (GetOfferMappingEntries campaign_id market_token page)
                          (Response sc (Some body))])) as (new & -> & Hlen).
    + simpl in Hfuel. lia.
    + rewrite <- app_assoc. eexists. split; [reflexivity|]. simpl. now rewrite Hlen.
Qed.

(** The second loop raises the exception of the first product without
    offer. *)
Lemma sku_loop_raise (before after : list json) (bad : json) (shop_skus : list json)
    (e : exn) :
  Forall2 (fun product s => shop_sku product = Ok s) before shop_skus ->
  shop_sku bad = Raise e ->
  forall offer_ids, sku_loop (before ++ bad :: after) offer_ids = Raise e.
Proof.
  intros Hbefore Hbad.
  induction Hbefore as [|product s products skus Hs _ IH]; intros offer_ids; simpl.
  - now rewrite Hbad.
  - rewrite Hs. simpl. apply IH.
Qed.

(** With a server that always announces a next page the loop uses up any
    fuel, one request per unit. *)
Lemma page_loop_endless :
  (forall w page, exists status_code body entries next w',
     http w (GetOfferMappingEntries campaign_id market_token page)
       = (Response status_code (Some body), w') /\
     raise_for_status status_code = Ok tt /\
     reads_as_page body entries next /\ truthy next = true) ->
  forall fuel page product_list st,
    fst (page_loop World http fuel campaign_id market_token page product_list st)
      = Diverged /\
    exists new,
      trace (snd (page_loop World http fuel campaign_id market_token page
                    product_list st)) = trace st ++ new /\
      List.length new = fuel.
Proof.
  intros Hsrv. induction fuel as [|fuel IH]; intros page product_list st.
  - simpl. split; [reflexivity|]. exists []. now rewrite app_nil_r.
  - destruct (Hsrv (world st) page)
      as (sc & body & entries & next & w' & Hhttp & Hsc & Hread & Hmore).
    destruct Hread as (some_prod & paging & Hres & Hent & Hpag & Hnext).
    cbn [page_loop]; unfold mbind at 1, get_product_list, mbind, send; simpl.
    rewrite Hhttp; simpl; rewrite Hsc; simpl; rewrite Hres; simpl.
    rewrite Hent; simpl; rewrite Hpag; simpl; rewrite Hnext; simpl.
    rewrite Hmore. simpl.
    destruct (IH next (product_list ++ entries)
                (mk_state w' (trace st ++
                   [Sent (GetOfferMappingEntries campaign_id market_token page)
                      (Response sc (Some body))]))) as (Hdiv & new & Htr & Hlen).
    split; [exact Hdiv|]. rewrite Htr. simpl. rewrite <- app_assoc.
    eexists. split; [reflexivity|]. simpl. now rewrite Hlen.
Qed.

End MoreFetchFacts.

(** X15.  [get_offer_ids] only reads: every request it sends is a listing
    request of the given campaign with the given token, and the first one
    carries the empty page token. *)
Theorem get_offer_ids_only_lists
    (World : Type) (http : World -> request -> reply * World)
    (fuel : nat) (campaign_id market_token : string) (st : state World) :
  exists new,
    trace (snd (get_offer_ids World http fuel campaign_id market_token st)) =
      trace st ++ new /\
    Forall (lists_for campaign_id market_token) new /\
    match new with
    | [] => fuel = O
    | first :: _ =>
        exists rp,
          first = Sent (GetOfferMappingEntries campaign_id market_token (JStr "")) rp
    end.
Proof.
  destruct (emits_only_get_offer_ids World http (lists_for campaign_id market_token)
              campaign_id market_token
              (fun page rp => ex_intro _ page (ex_intro _ rp eq_refl)) fuel st)
    as (new & Htr & Hall).
  exists new. split; [exact Htr|]. split; [exact Hall|].
  destruct fuel as [|fuel].
  - simpl in Htr. destruct new; [reflexivity|].
    apply (f_equal (@List.length event)) in Htr. rewrite length_app in Htr.
    simpl in Htr. lia.
  - assert (Hsame : trace (snd (get_offer_ids World http (S fuel) campaign_id
                                  market_token st)) =
                    trace (snd (page_loop World http (S fuel) campaign_id market_token
                                  (JStr "") [] st))).
    { unfold get_offer_ids, mbind.
      destruct (page_loop World http (S fuel) campaign_id market_token (JStr "") [] st)
        as [[pl|e|] st1]; simpl; [|reflexivity..].
      destruct (sku_loop pl []); reflexivity. }
    destruct (page_loop_first_request World http campaign_id market_token fuel
                (JStr "") [] st) as (rp & rest & Hfirst).
    rewrite Hsame, Hfirst in Htr. apply app_inv_head in Htr. subst new. eauto.
Qed.

(** X16.  On a run of pages that ends with a falsy [nextPageToken] the fetch
    sends exactly one request per page: no page is asked for twice and
    nothing is asked after the last page. *)
Theorem get_offer_ids_one_request_per_page
    (World : Type) (http : World -> request -> reply * World)
    (campaign_id market_token : string) (w w' : World)
    (pages : list (list json)) (fuel : nat) (tr : list event) :
  serves_pages http campaign_id market_token w (JStr "") pages w' ->
  (List.length pages <= fuel)%nat ->
  exists new,
    trace (snd (get_offer_ids World http fuel campaign_id market_token (mk_state w tr)))
      = tr ++ new /\
    List.length new = List.length pages.
Proof.
  intros Hrun Hfuel.
  destruct (page_loop_serves_count World http _ _ _ _ _ _ Hrun fuel [] tr Hfuel)
    as (new & Htr & Hlen).
  exists new. split; [|exact Hlen]. rewrite <- Htr.
  unfold get_offer_ids, mbind.
  destruct (page_loop World http fuel campaign_id market_token (JStr "") []
              (mk_state w tr)) as [[pl|e|] st1]; simpl; [|reflexivity..].
  destruct (sku_loop pl []); reflexivity.
Qed.

Lemma get_offer_ids_one_request_per_page_witness :
  exists new,
    trace (snd (get_offer_ids unit Sample.two_pages 7 "fbs" "token" (mk_state tt [])))
      = [] ++ new /\
    List.length new = 2%nat.
Proof.
  apply (get_offer_ids_one_request_per_page unit Sample.two_pages "fbs" "token" tt tt
           [[Sample.entry "A1"; Sample.entry "B2"]; [Sample.entry "C3"]] 7 []).
  - eapply serves_next_page.
    + reflexivity.
    + reflexivity.
    + eexists. eexists. repeat split; reflexivity.
    + reflexivity.
    + eapply serves_last_page.
      * reflexivity.
      * reflexivity.
      * eexists. eexists. repeat split; reflexivity.
      * reflexivity.
  - simpl. lia.
Defined.

(** X17.  The loop has no bound of its own: against a server that answers
    every listing request with a well-formed page and a truthy
    [nextPageToken], [get_offer_ids] neither returns nor raises, and goes on
    sending requests (one per unit of fuel, for every fuel). *)
Theorem get_offer_ids_endless_cursor
    (World : Type) (http : World -> request -> reply * World)
    (campaign_id market_token : string) :
  (forall w page, exists status_code body entries next w',
     http w (GetOfferMappingEntries campaign_id market_token page)
       = (Response status_code (Some body), w') /\
     raise_for_status status_code = Ok tt /\
     reads_as_page body entries next /\ truthy next = true) ->
  forall fuel st,
    fst (get_offer_ids World http fuel campaign_id market_token st) = Diverged /\
    exists new,
      trace (snd (get_offer_ids World http fuel campaign_id market_token st))
        = trace st ++ new /\
      List.length new = fuel.
Proof.
  intros Hsrv fuel st.
  destruct (page_loop_endless World http campaign_id market_token Hsrv fuel
              (JStr "") [] st) as (Hdiv & new & Htr & Hlen).
  unfold get_offer_ids, mbind.
  destruct (page_loop World http fuel campaign_id market_token (JStr "") [] st)
    as [[pl|e|] st1]; simpl in *; try discriminate.
  split; [reflexivity|]. eauto.
Qed.

Lemma get_offer_ids_endless_cursor_witness :
  fst (get_offer_ids unit Sample.endless 25 "fbs" "token" (mk_state tt [])) = Diverged.
Proof.
  apply (get_offer_ids_endless_cursor unit Sample.endless "fbs" "token").
  intros w page. do 5 eexists. split; [reflexivity|]. split; [reflexivity|].
  split.
  - eexists. eexists. repeat split; reflexivity.
  - reflexivity.
Defined.

(** X18.  A successful first page that lacks an expected member makes
    [get_offer_ids] crash after that one request: [AttributeError] when the
    body has no [result] or the result has no [paging] (a [None] has no
    [get]), [TypeError] when the result has no [offerMappingEntries] (a
    [None] cannot extend the list). *)
Theorem get_offer_ids_missing_member
    (World : Type) (http : World -> request -> reply * World)
    (fuel : nat) (campaign_id market_token : string) (st : state World)
    (status_code : Z) (body : json) (w' : World) (e : exn) :
  http (world st) (GetOfferMappingEntries campaign_id market_token (JStr ""))
    = (Response status_code (Some body), w') ->
  raise_for_status status_code = Ok tt ->
  (get body "result" = Ok JNull /\ e = AttributeError) \/
  (exists some_prod,
     get body "result" = Ok some_prod /\
     get some_prod "offerMappingEntries" = Ok JNull /\ e = TypeError) \/
  (exists some_prod entries,
     get body "result" = Ok some_prod /\
     get some_prod "offerMappingEntries" = Ok (JList entries) /\
     get some_prod "paging" = Ok JNull /\ e = AttributeError) ->
  get_offer_ids World http (S fuel) campaign_id market_token st =
  (Raised e,
   mk_state w'
     (trace st ++ [Sent (GetOfferMappingEntries campaign_id market_token (JStr ""))
                     (Response status_code (Some body))])).
Proof.
  intros Hhttp Hsc Hfault.
  unfold get_offer_ids. cbn [page_loop].
  unfold mbind, get_product_list, mbind, send. simpl.
  rewrite Hhttp. simpl. rewrite Hsc. simpl.
  destruct Hfault as [(Hres & ->) | [(some_prod & Hres & Hent & ->)
                                    | (some_prod & entries & Hres & Hent & Hpag & ->)]];
    rewrite Hres; simpl.
  - reflexivity.
  - rewrite Hent. reflexivity.
  - rewrite Hent. simpl. rewrite Hpag. reflexivity.
Qed.

Lemma get_offer_ids_missing_member_witness :
  get_offer_ids unit Sample.no_paging 3 "fbs" "token" (mk_state tt []) =
  (Raised AttributeError,
   mk_state tt
     ([] ++ [Sent (GetOfferMappingEntries "fbs" "token" (JStr ""))
               (Response 200
                  (Some (JDict [("result",
                                 JDict [("offerMappingEntries",
                                         JList [Sample.entry "A1"])])])))])).
Proof.
  apply (get_offer_ids_missing_member unit Sample.no_paging 2 "fbs" "token"
           (mk_state tt []) 200
           (JDict [("result", JDict [("offerMappingEntries",
                                      JList [Sample.entry "A1"])])])
           tt AttributeError).
  - reflexivity.
  - reflexivity.
  - right. right. eexists. eexists. repeat split; reflexivity.
Defined.

(** X19.  The entries are read after the last page has been fetched: when
    an entry has no [offer] (or another value without [get]), every page is
    still requested, then [get_offer_ids] raises the exception of the first
    such entry and returns no id. *)
Theorem get_offer_ids_entry_without_offer
    (World : Type) (http : World -> request -> reply * World)
    (campaign_id market_token : string) (w w' : World)
    (pages : list (list json)) (before after shop_skus : list json) (bad : json)
    (e : exn) (fuel : nat) (tr : list event) :
  serves_pages http campaign_id market_token w (JStr "") pages w' ->
  List.concat pages = before ++ bad :: after ->
  Forall2 (fun product s => shop_sku product = Ok s) before shop_skus ->
  shop_sku bad = Raise e ->
  (List.length pages <= fuel)%nat ->
  fst (get_offer_ids World http fuel campaign_id market_token (mk_state w tr))
    = Raised e /\
  world (snd (get_offer_ids World http fuel campaign_id market_token (mk_state w tr)))
    = w'.
Proof.
  intros Hrun Hsplit Hbefore Hbad Hfuel.
  destruct (page_loop_serves World http _ _ _ _ _ _ Hrun fuel [] tr Hfuel) as (tr' & Hloop).
  unfold get_offer_ids, mbind. rewrite Hloop. simpl. rewrite Hsplit.
  rewrite (sku_loop_raise before after bad shop_skus e Hbefore Hbad). simpl.
  split; reflexivity.
Qed.

Lemma get_offer_ids_entry_without_offer_witness :
  fst (get_offer_ids unit Sample.entry_without_offer 3 "fbs" "token" (mk_state tt []))
    = Raised AttributeError.
Proof.
  apply (get_offer_ids_entry_without_offer unit Sample.entry_without_offer
           "fbs" "token" tt tt [[Sample.entry "A1"; JDict []]]
           [Sample.entry "A1"] [] [JStr "A1"] (JDict []) AttributeError 3 []).
  - eapply serves_last_page.
    + reflexivity.
    + reflexivity.
    + eexists. eexists. repeat split; reflexivity.
    + reflexivity.
  - reflexivity.
  - repeat constructor.
  - reflexivity.
  - simpl. lia.
Defined.

(* ================================================================== *)
(** ** Further properties of [main]                                    *)
(* ================================================================== *)

Section MoreOrchestratorFacts.

Variable price_conversion : cell -> result cell.
Variable World : Type.
Variable http : World -> request -> reply * World.
Variable utcnow : World -> string.

(** What [main] does for a channel is addressed to the campaign of the
    channel, with the token. *)
Lemma sync_channel_syncs (fuel : nat) (watch_remnants : list watch)
    (campaign_id warehouse_id market_token : string) (st : state World) :
  exists new,
    trace (snd (sync_channel price_conversion World http utcnow fuel watch_remnants
                  campaign_id warehouse_id market_token st)) = trace st ++ new /\
    Forall (syncs campaign_id market_token) new.
Proof.
  apply (emits_only_sync_channel price_conversion World http utcnow
           (syncs campaign_id market_token) campaign_id market_token).
  - intros page rp. left. exists page, rp. reflexivity.
  - intros skus rp. right. exists skus, rp. reflexivity.
Qed.

(** A handler prints one message and returns. *)
Lemma report_prints (e : exn) (st : state World) :
  exists msg,
    report World e st = (Return tt, mk_state (world st) (trace st ++ [Printed msg])).
Proof.
  destruct e; simpl; unfold print; eauto.
Qed.

End MoreOrchestratorFacts.

(** X20.  [main] never lets an exception out: whatever a request, a
    malformed page or a malformed quantity raises inside the [try] block is
    caught by one of the three handlers. *)
Theorem main_never_raises
    (price_conversion : cell -> result cell)
    (World : Type) (http : World -> request -> reply * World)
    (utcnow : World -> string)
    (fuel : nat) (e : env) (watch_remnants : list watch) (st : state World)
    (ex : exn) :
  fst (main price_conversion World http utcnow fuel e watch_remnants st) <> Raised ex.
Proof.
  unfold main, try_except.
  destruct (mbind World _ _ st) as [[[]|ex'|] st']; simpl; try discriminate.
  destruct (report_prints World ex' st') as (msg & ->). discriminate.
Qed.

(** X21.  The two channels are not independent: when anything raises while
    the first channel (FBS) is synchronised, [main] prints one message and
    returns without doing anything for the second channel (DBS); all that it
    has sent are requests to the FBS campaign. *)
Theorem main_stops_after_failed_channel
    (price_conversion : cell -> result cell)
    (World : Type) (http : World -> request -> reply * World)
    (utcnow : World -> string)
    (fuel : nat) (e : env) (watch_remnants : list watch) (st st' : state World)
    (ex : exn) :
  sync_channel price_conversion World http utcnow fuel watch_remnants
    (FBS_ID e) (WAREHOUSE_FBS_ID e) (MARKET_TOKEN e) st = (Raised ex, st') ->
  exists sent msg,
    main price_conversion World http utcnow fuel e watch_remnants st =
      (Return tt, mk_state (world st') (trace st ++ sent ++ [Printed msg])) /\
    Forall (syncs (FBS_ID e) (MARKET_TOKEN e)) sent.
Proof.
  intros H.
  destruct (sync_channel_syncs price_conversion World http utcnow fuel watch_remnants
              (FBS_ID e) (WAREHOUSE_FBS_ID e) (MARKET_TOKEN e) st) as (sent & Htr & Hall).
  rewrite H in Htr. simpl in Htr.
  destruct (report_prints World ex st') as (msg & Hmsg).
  exists sent, msg. split; [|exact Hall].
  unfold main, try_except, mbind. rewrite H. rewrite Hmsg, Htr, app_assoc.
  reflexivity.
Qed.

Lemma main_stops_after_failed_channel_witness :
  exists sent msg,
    main Seller.price_conversion unit Sample.unreachable Sample.clock 4
         Sample.environment Sample.inventory (mk_state tt []) =
      (Return tt, mk_state tt ([] ++ sent ++ [Printed msg])) /\
    Forall (syncs "fbs" "token") sent.
Proof.
  apply (main_stops_after_failed_channel Seller.price_conversion unit
           Sample.unreachable Sample.clock 4 Sample.environment Sample.inventory
           (mk_state tt [])
           (mk_state tt [Sent (GetOfferMappingEntries "fbs" "token" (JStr ""))
                           (Failed ConnectionError)])
           ConnectionError).
  reflexivity.
Defined.

(** X22.  A run of [main] is, in this order: requests to the FBS campaign
    (listing, then stock submissions), then requests to the DBS campaign,
    then at most one printed message; both channels use the one token, and
    nothing else is sent or printed. *)
Theorem main_channels_in_turn
    (price_conversion : cell -> result cell)
    (World : Type) (http : World -> request -> reply * World)
    (utcnow : World -> string)
    (fuel : nat) (e : env) (watch_remnants : list watch) (st : state World) :
  exists fbs dbs tail,
    trace (snd (main price_conversion World http utcnow fuel e watch_remnants st)) =
      trace st ++ fbs ++ dbs ++ tail /\
    Forall (syncs (FBS_ID e) (MARKET_TOKEN e)) fbs /\
    Forall (syncs (DBS_ID e) (MARKET_TOKEN e)) dbs /\
    (tail = [] \/ exists msg, tail = [Printed msg]).
Proof.
  destruct (sync_channel_syncs price_conversion World http utcnow fuel watch_remnants
              (FBS_ID e) (WAREHOUSE_FBS_ID e) (MARKET_TOKEN e) st) as (fbs & Hfbs & Hall1).
  unfold main, try_except, mbind.
  destruct (sync_channel price_conversion World http utcnow fuel watch_remnants
              (FBS_ID e) (WAREHOUSE_FBS_ID e) (MARKET_TOKEN e) st)
    as [[[]|ex|] st1]; simpl in Hfbs.
  - destruct (sync_channel_syncs price_conversion World http utcnow fuel watch_remnants
                (DBS_ID e) (WAREHOUSE_DBS_ID e) (MARKET_TOKEN e) st1)
      as (dbs & Hdbs & Hall2).
    destruct (sync_channel price_conversion World http utcnow fuel watch_remnants
                (DBS_ID e) (WAREHOUSE_DBS_ID e) (MARKET_TOKEN e) st1)
      as [[[]|ex|] st2]; simpl in Hdbs.
    + exists fbs, dbs, []. simpl. rewrite Hdbs, Hfbs, app_nil_r, app_assoc. auto.
    + destruct (report_prints World ex st2) as (msg & ->). simpl.
      exists fbs, dbs, [Printed msg]. rewrite Hdbs, Hfbs, <- !app_assoc. eauto 6.
    + exists fbs, dbs, []. simpl. rewrite Hdbs, Hfbs, app_nil_r, app_assoc. auto.
  - destruct (report_prints World ex st1) as (msg & ->). simpl.
    exists fbs, [], [Printed msg]. rewrite Hfbs, <- !app_assoc. simpl. eauto 6.
  - exists fbs, [], []. simpl. rewrite Hfbs, app_nil_r. auto.
Qed.

(* ================================================================== *)
(** ** Exceptions of the requests                                      *)
(* ================================================================== *)

Section PassingOn.

Variable World : Type.
Variable http : World -> request -> reply * World.

Lemma passes_on_lift {A} (r : result A) : passes_on (lift World r).
Proof.
  intros st. exists []. destruct r; simpl; rewrite app_nil_r;
    (split; [reflexivity | intros ? ? ? []]).
Qed.

Lemma passes_on_ret {A} (a : A) : passes_on (ret World a).
Proof.
  intros st. exists []. simpl. rewrite app_nil_r.
  split; [reflexivity | intros ? ? ? []].
Qed.

Lemma passes_on_bind {A B} (m : M World A) (k : A -> M World B) :
  passes_on m -> (forall a, passes_on (k a)) -> passes_on (mbind World m k).
Proof.
  intros Hm Hk st. destruct (Hm st) as (new & Htr & Herr).
  unfold mbind. destruct (m st) as [[a|e|] st'] eqn:E; simpl in *.
  - destruct (Hk a st') as (new' & Htr' & Herr').
    exists (new ++ new'). rewrite Htr', Htr, app_assoc. split; [reflexivity|].
    intros rq rp e' Hin Hrp. apply in_app_or in Hin as [Hin|Hin].
    + specialize (Herr _ _ _ Hin Hrp). discriminate.
    + now apply (Herr' rq rp).
  - exists new. split; [assumption|].
    intros rq rp e' Hin Hrp. specialize (Herr _ _ _ Hin Hrp).
    injection Herr as ->. reflexivity.
  - exists new. split; [assumption|].
    intros rq rp e' Hin Hrp. specialize (Herr _ _ _ Hin Hrp). discriminate.
Qed.

Lemma passes_on_get_product_list (page : json) (campaign_id access_token : string) :
  passes_on (get_product_list World http page campaign_id access_token).
Proof.
  intros st. unfold get_product_list, mbind, send.
  destruct (http (world st) (GetOfferMappingEntries campaign_id access_token page))
    as [rp w'] eqn:E.
  exists [Sent (GetOfferMappingEntries campaign_id access_token page) rp].
  split.
  - destruct rp as [e|status_code body]; simpl; [reflexivity|].
    destruct (raise_for_status status_code); simpl; [|reflexivity].
    destruct (json_ body) as [j|]; simpl; [|reflexivity].
    destruct (get j "result"); reflexivity.
  - intros rq rp' e' [Hin | []] Hrp. injection Hin as <- <-.
    destruct rp as [e|status_code body]; simpl in *.
    + now injection Hrp as ->.
    + unfold raise_for_status.
      destruct ((400 <=? status_code) && (status_code <? 600)); simpl.
      * now injection Hrp as <-.
      * destruct body as [j|]; [discriminate|]. now injection Hrp as <-.
Qed.

Lemma passes_on_page_loop (campaign_id market_token : string) (fuel : nat) :
  forall page product_list,
    passes_on (page_loop World http fuel campaign_id market_token page product_list).
Proof.
  induction fuel as [|fuel IH]; intros page product_list.
  - intros st. exists []. simpl. rewrite app_nil_r.
    split; [reflexivity | intros ? ? ? []].
  - cbn [page_loop].
    apply passes_on_bind; [apply passes_on_get_product_list|]. intros some_prod.
    apply passes_on_bind; [apply passes_on_lift|]. intros entries.
    apply passes_on_bind; [apply passes_on_lift|]. intros product_list'.
    apply passes_on_bind; [apply passes_on_lift|]. intros paging.
    apply passes_on_bind; [apply passes_on_lift|]. intros page'.
    destruct (negb (truthy page')); [apply passes_on_ret | apply IH].
Qed.

End PassingOn.

(** X23.  [get_offer_ids] passes on, unchanged, what a page request raises:
    the exception of [requests.get] itself (a connection error, a timeout),
    [HTTPError] for a 4xx or 5xx status, the decoding error of a body that is
    not JSON.  Nothing is retried and no id is returned, whatever the pages
    fetched before. *)
Theorem get_offer_ids_passes_on_request_errors
    (World : Type) (http : World -> request -> reply * World)
    (fuel : nat) (campaign_id market_token : string) (w : World)
    (rq : request) (rp : reply) (e : exn) :
  In (Sent rq rp)
     (trace (snd (get_offer_ids World http fuel campaign_id market_token
                    (mk_state w [])))) ->
  reply_raises rp = Some e ->
  fst (get_offer_ids World http fuel campaign_id market_token (mk_state w []))
    = Raised e.
Proof.
  assert (H : passes_on (get_offer_ids World http fuel campaign_id market_token)).
  { apply passes_on_bind; [apply passes_on_page_loop|].
    intros product_list. apply passes_on_lift. }
  destruct (H (mk_state w [])) as (new & Htr & Herr).
  simpl in Htr. rewrite Htr. apply Herr.
Qed.

Lemma get_offer_ids_passes_on_request_errors_witness :
  fst (get_offer_ids unit Sample.unreachable 5 "fbs" "token" (mk_state tt []))
    = Raised ConnectionError.
Proof.
  apply (get_offer_ids_passes_on_request_errors unit Sample.unreachable 5
           "fbs" "token" tt
           (GetOfferMappingEntries "fbs" "token" (JStr "")) (Failed ConnectionError)).
  - left. reflexivity.
  - reflexivity.
Defined.

(** X24.  When the body of [upload_stocks] returns, its second result is
    the list that [create_stocks] built from the ids just fetched, with the
    clock read after the fetch, and its first result is the updates of that
    list whose count is not 0, in their order. *)
Theorem upload_stocks_body_results
    (World : Type) (http : World -> request -> reply * World)
    (utcnow : World -> string)
    (fuel : nat) (watch_remnants : list watch)
    (campaign_id market_token warehouse_id : string)
    (st st' : state World) (not_empty stocks : list stock) :
  upload_stocks_body World http utcnow fuel watch_remnants campaign_id market_token
    warehouse_id st = (Return (not_empty, stocks), st') ->
  not_empty = filter has_stock stocks /\
  exists offer_ids st1,
    get_offer_ids World http fuel campaign_id market_token st = (Return offer_ids, st1) /\
    fst (create_stocks watch_remnants offer_ids warehouse_id (utcnow (world st1)))
      = Ok stocks.
Proof.
  unfold upload_stocks_body, mbind at 1.
  destruct (get_offer_ids World http fuel campaign_id market_token st)
    as [[offer_ids|e|] st1]; [|discriminate..].
  unfold mbind at 1, now at 1. unfold mbind at 1.
  destruct (fst (create_stocks watch_remnants offer_ids warehouse_id (utcnow (world st1))))
    as [stocks0|e] eqn:Hcs; simpl; [|discriminate].
  unfold mbind at 1.
  destruct (for_each World (Seller.divide stocks0 2000) _ st1) as [[[]|e|] st2];
    [|discriminate..].
  rewrite (filter_nonzero_created _ _ _ _ _ Hcs). unfold mbind. simpl.
  intros [= <- <- <-]. split; [reflexivity|]. eauto.
Qed.

Lemma upload_stocks_body_results_witness :
  [matched_stock "wh" (Sample.clock tt) Sample.watch_A1 100] =
  filter has_stock
    [matched_stock "wh" (Sample.clock tt) Sample.watch_A1 100;
     fill "wh" (Sample.clock tt) (JStr "B2"); fill "wh" (Sample.clock tt) (JStr "C3")].
Proof.
  eapply (upload_stocks_body_results unit Sample.two_pages Sample.clock 5
            Sample.inventory "fbs" "token" "wh" (mk_state tt [])).
  reflexivity.
Defined.

(* ================================================================== *)
(** ** The body of [upload_prices]                                     *)
(* ================================================================== *)

Section UploadPrices.

Variable price_conversion : cell -> result cell.
Variable World : Type.
Variable http : World -> request -> reply * World.
Variables campaign_id market_token : string.

Lemma emits_only_update_price (offers : list price) :
  emits_only (price_sync campaign_id market_token)
    (update_price World http offers campaign_id market_token).
Proof.
  apply emits_only_exchange.
  - intros rp. right. exists offers, rp. reflexivity.
  - intros [e|status_code body]; [intros st; exists []; simpl; now rewrite app_nil_r|].
    apply emits_only_bind; [apply emits_only_lift|]. intros _. apply emits_only_lift.
Qed.

Lemma emits_only_price_batches (chunks : list (list price)) :
  emits_only (price_sync campaign_id market_token)
    (for_each World chunks
       (fun some_prices => update_price World http some_prices campaign_id market_token)).
Proof.
  induction chunks as [|c rest IH]; cbn [for_each]; [apply emits_only_ret|].
  apply emits_only_bind; [apply emits_only_update_price | intros _; exact IH].
Qed.

End UploadPrices.

(** X25.  The body of [upload_prices], when it runs, talks to the given
    campaign only, with listing requests and price submissions, and never
    submits stocks; when it returns, its result is the list that
    [create_prices] built from the ids it has just fetched. *)
Theorem upload_prices_body_only_prices
    (price_conversion : cell -> result cell)
    (World : Type) (http : World -> request -> reply * World)
    (fuel : nat) (watch_remnants : list watch)
    (campaign_id market_token : string) (st : state World) :
  (exists new,
     trace (snd (upload_prices_body price_conversion World http fuel watch_remnants
                   campaign_id market_token st)) = trace st ++ new /\
     Forall (price_sync campaign_id market_token) new) /\
  forall offers,
    fst (upload_prices_body price_conversion World http fuel watch_remnants
           campaign_id market_token st) = Return offers ->
    exists offer_ids st1,
      get_offer_ids World http fuel campaign_id market_token st
        = (Return offer_ids, st1) /\
      create_prices price_conversion watch_remnants offer_ids = Ok offers.
Proof.
  split.
  - revert st. change (emits_only (price_sync campaign_id market_token)
                         (upload_prices_body price_conversion World http fuel
                            watch_remnants campaign_id market_token)).
    unfold upload_prices_body.
    apply emits_only_bind.
    { apply emits_only_get_offer_ids. intros page rp. left. now exists page, rp. }
    intros offer_ids.
    apply emits_only_bind; [apply emits_only_lift|]. intros created.
    apply emits_only_bind; [apply emits_only_price_batches|]. intros _.
    apply emits_only_ret.
  - intros offers. unfold upload_prices_body, mbind at 1.
    destruct (get_offer_ids World http fuel campaign_id market_token st)
      as [[offer_ids|e|] st1]; [|discriminate..].
    unfold mbind at 1.
    destruct (create_prices price_conversion watch_remnants offer_ids)
      as [created|e] eqn:Hcreated; simpl; [|discriminate].
    unfold mbind.
    destruct (for_each World (Seller.divide created 500) _ st1) as [[[]|e|] st2];
      simpl; [|discriminate..].
    intros [= <-]. exists offer_ids, st1. split; [reflexivity | exact Hcreated].
Qed.
